(** * Call-center dashboard: normalisation, filtering, aggregation, history

    A shallow embedding of [app.py]: the load-time normalisation of the
    spreadsheet (lines 19-30), the filter stage and the five chart inputs of
    [update_graphs] (lines 151-217) and the [past_filters] table driven by
    [handle_past_data] (lines 40-49 and 231-248).

    Conventions.
    - A spreadsheet cell is an optional value; the missing cell (pandas'
      NaN, NaT or None) is [None].
    - A number in a cell (an int, a finite float, a bool) is the rational
      it denotes: Python orders, equates and hashes numbers of these types
      by value.
    - Timestamps of the [datetime64] column are integers (nanoseconds since
      the epoch), durations in seconds are rationals: every duration that
      survives [dropna] is a finite float, and comparisons of finite floats
      are comparisons of the rationals they denote.
    - A data frame is the list of its rows, in row order; a boolean mask
      [df[mask]] is [List.filter].
    - The result of [groupby(...).size()] is a finite map from group key to
      count. *)

From Stdlib Require Import QArith Qminmax Qcanon.
From stdpp Require Import gmap strings list fin_maps sorting pretty.

Local Open Scope string_scope.
Local Open Scope Z_scope.

(** ** Python values and exceptions *)

(** The kinds of date and time objects [read_excel] puts in a cell:
    [datetime.datetime], [datetime.time], [datetime.timedelta]. *)
Inductive temporal := DateTime | TimeOfDay | TimeDelta.

(** What a cell holds: a number, a string, or a date or time object with
    its count of nanoseconds. *)
Inductive value :=
  | Num (q : Qc)
  | Text (s : string)
  | Temporal (k : temporal) (ns : Z).

(** A cell of the loaded sheet; [None] is the missing cell. *)
Definition cell := option value.
Definition NaN : cell := None.

#[global] Instance temporal_eq_dec : EqDecision temporal.
Proof. solve_decision. Defined.

#[global] Instance value_eq_dec : EqDecision value.
Proof. solve_decision. Defined.

Definition temporal_to_nat (k : temporal) : nat :=
  match k with DateTime => 0 | TimeOfDay => 1 | TimeDelta => 2 end.
Definition temporal_of_nat (n : nat) : temporal :=
  match n with O => DateTime | S O => TimeOfDay | _ => TimeDelta end.

Definition value_to_sum (v : value) : Qc + (string + nat * Z) :=
  match v with
  | Num q => inl q
  | Text s => inr (inl s)
  | Temporal k ns => inr (inr (temporal_to_nat k, ns))
  end.
Definition value_of_sum (x : Qc + (string + nat * Z)) : value :=
  match x with
  | inl q => Num q
  | inr (inl s) => Text s
  | inr (inr (n, ns)) => Temporal (temporal_of_nat n) ns
  end.

#[global] Instance value_countable : Countable value :=
  inj_countable' value_to_sum value_of_sum
    (fun v => match v with
              | Num _ => eq_refl
              | Text _ => eq_refl
              | Temporal DateTime _ => eq_refl
              | Temporal TimeOfDay _ => eq_refl
              | Temporal TimeDelta _ => eq_refl
              end).

(** Outcome of running Python code: a value, or an uncaught exception. *)
Inductive exn := TypeError | OperationalError.

Inductive result (A : Type) :=
  | Ok (a : A)
  | Raise (e : exn).
Arguments Ok {A} a.
Arguments Raise {A} e.

#[global] Instance result_ret : MRet result := fun A a => Ok a.
#[global] Instance result_bind : MBind result := fun A B k m =>
  match m with Ok a => k a | Raise e => Raise e end.

(** [Series.apply f]: [f] on every element, the first exception aborts. *)
Fixpoint series_apply {A B} (f : A -> result B) (l : list A) : result (list B) :=
  match l with
  | [] => Ok []
  | x :: tl => y ← f x; ys ← series_apply f tl; Ok (y :: ys)
  end.

(** [rating >= n] for an integer literal [n]: numbers compare by value,
    NaN compares false with everything, and a string or a date or time
    object against an integer raises. *)
Definition py_ge (rating : cell) (n : Z) : result bool :=
  match rating with
  | Some (Num q) => Ok (bool_decide (Qc_of_Z n <= q)%Qc)
  | None => Ok false
  | Some (Text _) => Raise TypeError
  | Some (Temporal _ _) => Raise TypeError
  end.

(** [rating == n]: never raises. *)
Definition py_eq (rating : cell) (n : Z) : bool :=
  match rating with
  | Some (Num q) => bool_decide (q = Qc_of_Z n)
  | _ => false
  end.

(** [if x:] on an optional list and on an optional string. *)
Definition truthy_list {A} (x : option (list A)) : bool :=
  match x with Some (_ :: _) => true | _ => false end.

Definition truthy_str (x : option string) : bool :=
  match x with
  | Some s => negb (String.eqb s "")
  | None => false
  end.

(** ** RecordNormalizer (app.py 19-30) *)

(** app.py 19-25 *)
Definition classify_sentiment (rating : cell) : result string :=
  ge4 ← py_ge rating 4;
  if (ge4 : bool) then Ok "Positive"
  else if py_eq rating 3 then Ok "Neutral"
  else Ok "Negative".

(** A row as [read_excel] returns it (the four required columns). *)
Record raw_row := {
  raw_rating : cell;
  raw_Date : cell;
  raw_Resolved : cell;
  raw_AvgTalkDuration : cell
}.

(** A row after lines 27-29: the derived and the re-typed columns. *)
Record parsed_row := {
  p_rating : cell;
  p_Date : option Z;
  p_Resolved : cell;
  p_AvgTalkDuration : option Q;
  p_Sentiment : option string
}.

(** A row of [df] after line 30. *)
Record CallRecord := {
  rating : cell;
  Date : Z;
  Resolved : value;
  AvgTalkDuration : Q;
  Sentiment : string
}.

Section RecordNormalizer.
(** [pd.to_datetime(_, errors="coerce")] on one cell; [None] is NaT. *)
Variable to_datetime : cell -> option Z.
(** [pd.to_timedelta(str(_), errors="coerce").total_seconds()] on one
    cell; [None] is NaN. *)
Variable to_timedelta_seconds : cell -> option Q.

(** Lines 27-29 on one row. Line 27 classifies the whole column before
    the other columns are parsed; both parsers coerce instead of raising,
    so the classifier is the only source of an exception and going row by
    row gives the same outcome. *)
Definition parse_row (r : raw_row) : result parsed_row :=
  s ← classify_sentiment (raw_rating r);
  Ok {| p_rating := raw_rating r;
        p_Date := to_datetime (raw_Date r);
        p_Resolved := raw_Resolved r;
        p_AvgTalkDuration := to_timedelta_seconds (raw_AvgTalkDuration r);
        p_Sentiment := Some s |}.

(** Line 30 on one row:
    [dropna(subset=["Date", "AvgTalkDuration", "Sentiment", "Resolved"])]
    keeps the row when none of the four is missing. *)
Definition dropna_row (p : parsed_row) : option CallRecord :=
  match p_Date p, p_AvgTalkDuration p, p_Sentiment p, p_Resolved p with
  | Some d, Some t, Some s, Some v =>
      Some {| rating := p_rating p; Date := d; Resolved := v;
              AvgTalkDuration := t; Sentiment := s |}
  | _, _, _, _ => None
  end.

Definition dropna (df : list parsed_row) : list CallRecord :=
  omap dropna_row df.

(** Lines 27-30: the normalised frame, or the exception that stops the
    program at load time. *)
Definition normalize (sheet : list raw_row) : result (list CallRecord) :=
  parsed ← series_apply parse_row sheet;
  Ok (dropna parsed).

(** The date, the duration and the resolution flag of a raw row are all
    there after parsing. *)
Definition present (r : raw_row) : Prop :=
  is_Some (to_datetime (raw_Date r))
  /\ is_Some (to_timedelta_seconds (raw_AvgTalkDuration r))
  /\ is_Some (raw_Resolved r).

#[global] Instance present_dec r : Decision (present r).
Proof. unfold present. apply _. Defined.

(** [rec] is the record of the raw row [r]: the parsed fields, the rating
    as loaded, and the sentiment classified from that rating. *)
Definition record_of (r : raw_row) (rec : CallRecord) : Prop :=
  rating rec = raw_rating r
  /\ to_datetime (raw_Date r) = Some (Date rec)
  /\ to_timedelta_seconds (raw_AvgTalkDuration r) = Some (AvgTalkDuration rec)
  /\ raw_Resolved r = Some (Resolved rec)
  /\ classify_sentiment (rating rec) = Ok (Sentiment rec).
End RecordNormalizer.

(** A rating that Python compares with an integer without raising: a number
    or the missing cell. *)
Definition comparable (rating : cell) : Prop :=
  match rating with
  | Some (Text _) => False
  | Some (Temporal _ _) => False
  | _ => True
  end.

(** ** FilterEngine (app.py 151-165) *)

(** The five callback inputs of [update_graphs]. The two dates are the
    timestamps pandas compares the [Date] column with. *)
Record FilterCriteria := {
  selected_sentiments : option (list string);
  start_date : Z;
  end_date : Z;
  resolved_status : option string;
  duration_range : Q * Q
}.

(** [filtered_df["Sentiment"].isin(selected_sentiments)] *)
Definition isin (sel : option (list string)) (r : CallRecord) : bool :=
  bool_decide (Sentiment r ∈ default [] sel).

(** [(Date >= start_date) & (Date <= end_date)] *)
Definition date_mask (c : FilterCriteria) (r : CallRecord) : bool :=
  (start_date c <=? Date r) && (Date r <=? end_date c).

(** [filtered_df["Resolved"] == resolved_status]: a cell equals a string
    when it holds that string. *)
Definition resolved_mask (status : option string) (r : CallRecord) : bool :=
  match Resolved r, status with
  | Text t, Some s => String.eqb t s
  | _, _ => false
  end.

(** [(AvgTalkDuration >= duration_range[0]) & (AvgTalkDuration <= duration_range[1])] *)
Definition duration_mask (c : FilterCriteria) (r : CallRecord) : bool :=
  Qle_bool (fst (duration_range c)) (AvgTalkDuration r)
  && Qle_bool (AvgTalkDuration r) (snd (duration_range c)).

(** Lines 152-165. *)
Definition filtered_df (df : list CallRecord) (c : FilterCriteria) : list CallRecord :=
  let f0 := df in
  let f1 := if truthy_list (selected_sentiments c)
            then List.filter (isin (selected_sentiments c)) f0 else f0 in
  let f2 := List.filter (date_mask c) f1 in
  let f3 := if truthy_str (resolved_status c)
            then List.filter (resolved_mask (resolved_status c)) f2 else f2 in
  List.filter (duration_mask c) f3.

(** Lines 152-165 with the sentiment clause (154-155) taken out. *)
Definition filtered_df_without_sentiment
    (df : list CallRecord) (c : FilterCriteria) : list CallRecord :=
  let f2 := List.filter (date_mask c) df in
  let f3 := if truthy_str (resolved_status c)
            then List.filter (resolved_mask (resolved_status c)) f2 else f2 in
  List.filter (duration_mask c) f3.

(** The predicate of the specification: the four clauses AND-ed, a clause
    being skipped when its criteria field is absent or empty. *)
Definition sentiment_clause (c : FilterCriteria) (r : CallRecord) : Prop :=
  forall sel, selected_sentiments c = Some sel -> sel <> [] -> In (Sentiment r) sel.

Definition date_clause (c : FilterCriteria) (r : CallRecord) : Prop :=
  start_date c <= Date r <= end_date c.

Definition resolved_clause (c : FilterCriteria) (r : CallRecord) : Prop :=
  forall s, resolved_status c = Some s -> s <> "" -> Resolved r = Text s.

Definition duration_clause (c : FilterCriteria) (r : CallRecord) : Prop :=
  (fst (duration_range c) <= AvgTalkDuration r)%Q
  /\ (AvgTalkDuration r <= snd (duration_range c))%Q.

Definition satisfies (c : FilterCriteria) (r : CallRecord) : Prop :=
  sentiment_clause c r /\ date_clause c r /\ resolved_clause c r /\ duration_clause c r.

(** ** AggregationSuite (app.py 167-217) *)

(** [groupby(key).size()]: the number of rows per key. *)
Definition group_size `{Countable K} (keys : list K) : gmap K nat :=
  foldr (fun k m => <[k := S (default 0%nat (m !! k))]> m) ∅ keys.

(** The rows of each group, in row order: what a chart with one trace per
    group receives. *)
Definition group_values `{Countable K} {V} (rows : list (K * V)) : gmap K (list V) :=
  foldr (fun kv m => <[kv.1 := kv.2 :: default [] (m !! kv.1)]> m) ∅ rows.

(** The sum of the counts of all groups. *)
Definition total `{Countable K} (m : gmap K nat) : nat :=
  map_fold (fun _ n acc => (n + acc)%nat) 0%nat m.

(** [.unstack().fillna(0)] on counts keyed by (row, column): one row per
    first key, one column per second key, absent cells filled with 0. *)
Definition unstack_fillna `{Countable K1, Countable K2}
    (counts : gmap (K1 * K2) nat) : gmap K1 (gmap K2 nat) :=
  let index : gset K1 := set_map fst (dom counts) in
  let columns : gset K2 := set_map snd (dom counts) in
  set_to_map (fun i =>
    (i, set_to_map (fun j => (j, default 0%nat (counts !! (i, j)))) columns)) index.

Definition is_negative (r : CallRecord) : bool := String.eqb (Sentiment r) "Negative".

Section AggregationSuite.
(** [Timestamp.strftime("%Y-%m")] *)
Variable strftime_Ym : Z -> string.

(** Lines 167-173: the pie chart counts the rows per [Sentiment]. *)
Definition SentimentDistribution (fdf : list CallRecord) : gmap string nat :=
  group_size (Sentiment <$> fdf).

(** Lines 175-180 *)
Definition SentimentTrend (fdf : list CallRecord) : gmap string (gmap string nat) :=
  unstack_fillna (group_size ((fun r => (strftime_Ym (Date r), Sentiment r)) <$> fdf)).

(** Line 183 *)
Definition ResolutionImpact (fdf : list CallRecord) : gmap (value * string) nat :=
  group_size ((fun r => (Resolved r, Sentiment r)) <$> fdf).

(** Lines 194-200: the box plot receives the durations of each sentiment;
    the summary statistics are drawn from them by the chart. *)
Definition DurationBySentiment (fdf : list CallRecord) : gmap string (list Q) :=
  group_values ((fun r => (Sentiment r, AvgTalkDuration r)) <$> fdf).

(** Lines 202-207 *)
Definition ChurnIndicator (fdf : list CallRecord) : gmap value nat :=
  group_size (Resolved <$> List.filter is_negative fdf).

Record figures := {
  pie_fig : gmap string nat;
  trend_fig : gmap string (gmap string nat);
  resolution_fig : gmap (value * string) nat;
  duration_fig : gmap string (list Q);
  churn_fig : gmap value nat
}.

(** Lines 151-217 *)
Definition update_graphs (df : list CallRecord) (c : FilterCriteria) : figures :=
  let fdf := filtered_df df c in
  {| pie_fig := SentimentDistribution fdf;
     trend_fig := SentimentTrend fdf;
     resolution_fig := ResolutionImpact fdf;
     duration_fig := DurationBySentiment fdf;
     churn_fig := ChurnIndicator fdf |}.
End AggregationSuite.

(** ** FilterHistoryStore (app.py 38-50 and 231-248) *)

Module Store.

(** The five TEXT columns of [past_filters]; each is nullable. *)
Record filter_columns := {
  sentiment : option string;
  start_date : option string;
  end_date : option string;
  resolved : option string;
  duration_range : option string
}.

(** A row of [past_filters]. *)
Record past_filter := {
  id : Z;
  columns : filter_columns
}.

(** The database file: the table in rowid order (a table is stored by
    rowid, and the scan of [SELECT *] follows it) and the entry of
    [sqlite_sequence] that AUTOINCREMENT keeps for it: the largest rowid
    the table has ever held, 0 before the first insert. *)
Record database := {
  past_filters : list past_filter;
  sqlite_sequence : Z
}.

(** Lines 38-50 on a new file. *)
Definition fresh_database : database :=
  {| past_filters := []; sqlite_sequence := 0 |}.

(** The largest rowid: 2^63 - 1. *)
Definition max_rowid : Z := 9223372036854775807.

Definition largest_rowid (rows : list past_filter) : Z :=
  foldr Z.max 0 (id <$> rows).

(** [INSERT INTO past_filters (sentiment, ...) VALUES (?, ?, ?, ?, ?)]
    with [id INTEGER PRIMARY KEY AUTOINCREMENT]: the new rowid is one more
    than the largest the table has ever held; when that is the largest
    rowid the insert fails (SQLITE_FULL). *)
Definition sql_insert (vals : filter_columns) (db : database) : result database :=
  let largest := Z.max (sqlite_sequence db) (largest_rowid (past_filters db)) in
  if max_rowid <=? largest then Raise OperationalError
  else
    let rowid := largest + 1 in
    Ok {| past_filters := past_filters db ++ [{| id := rowid; columns := vals |}];
          sqlite_sequence := rowid |}.

(** [DELETE FROM past_filters]: [sqlite_sequence] is left as it is. *)
Definition sql_delete_all (db : database) : database :=
  {| past_filters := []; sqlite_sequence := sqlite_sequence db |}.

(** [SELECT * FROM past_filters] *)
Definition sql_select_all (db : database) : list past_filter :=
  past_filters db.

(** The [State] inputs of the callback. *)
Record view_state := {
  st_sentiment : option (list string);
  st_start_date : option string;
  st_end_date : option string;
  st_resolved : option string;
  st_duration_range : Q * Q
}.

(** One firing of the callback: the id part of [ctx.triggered[0]]
    ([None] when nothing triggered it) and the inputs. *)
Record event := {
  triggered : option string;
  inputs : view_state
}.

Section Callback.
(** Python's [str] on the sentiment selection and on the slider value. *)
Variable str_sentiment : option (list string) -> string.
Variable str_range : Q * Q -> string.

(** The parameter tuple of line 240. *)
Definition insert_values (st : view_state) : filter_columns :=
  {| sentiment := Some (str_sentiment (st_sentiment st));
     start_date := st_start_date st;
     end_date := st_end_date st;
     resolved := st_resolved st;
     duration_range := Some (str_range (st_duration_range st)) |}.

(** Lines 231-248. The output is [None] for the empty string of line
    234, and the frame read on line 247 otherwise. *)
Definition handle_past_data (ev : event) (conn : database)
    : result (database * option (list past_filter)) :=
  match triggered ev with
  | None => Ok (conn, None)
  | Some button_id =>
      conn' ← (if String.eqb button_id "save-view-btn"
               then sql_insert (insert_values (inputs ev)) conn
               else if String.eqb button_id "delete-all-btn"
               then Ok (sql_delete_all conn)
               else Ok conn);
      Ok (conn', Some (sql_select_all conn'))
  end.

(** The states the database goes through under a sequence of firings,
    oldest first, the starting state included. *)
Fixpoint run (evs : list event) (conn : database) : result (list database) :=
  match evs with
  | [] => Ok [conn]
  | ev :: evs' =>
      '(conn', _) ← handle_past_data ev conn;
      tr ← run evs' conn';
      Ok (conn :: tr)
  end.
End Callback.

Definition is_save (ev : event) : bool :=
  match triggered ev with
  | Some b => String.eqb b "save-view-btn"
  | None => false
  end.

(** The rowids one firing uses up. *)
Definition step_count (ev : event) : Z := if is_save ev then 1 else 0.

(** The number of "Save View" clicks in a sequence of firings. *)
Definition saves (evs : list event) : Z :=
  Z.of_nat (length (List.filter is_save evs)).

Definition ids (db : database) : list Z := id <$> past_filters db.

(** The table is in ascending rowid order, and [sqlite_sequence] bounds
    every rowid in it. *)
Definition wf (db : database) : Prop :=
  StronglySorted Z.lt (ids db)
  /\ Forall (fun i => 1 <= i <= sqlite_sequence db) (ids db)
  /\ 0 <= sqlite_sequence db.

Definition click (button_id : string) (st : view_state) : event :=
  {| triggered := Some button_id; inputs := st |}.

End Store.

(** ** Start-up: the column check, the slider bounds and the layout
    defaults (app.py 12-16, 32, 63-105) *)

(** Line 13. *)
Definition required_columns : gset string :=
  {[ "Satisfaction rating"; "Date"; "Resolved"; "AvgTalkDuration" ]}.

(** The frame [read_excel] returns: the column labels, and the rows as
    maps from label to value; the cell of a row under a label is the
    lookup, a missing cell being an absent key. *)
Record sheet_frame := {
  sheet_columns : list string;
  sheet_rows : list (gmap string value)
}.

(** Line 14: [required_columns - set(df.columns)]. *)
Definition missing_columns (fr : sheet_frame) : gset string :=
  required_columns ∖ list_to_set (sheet_columns fr).

(** The four cells lines 27-30 read from a row. *)
Definition as_raw_row (r : gmap string value) : raw_row :=
  {| raw_rating := r !! "Satisfaction rating";
     raw_Date := r !! "Date";
     raw_Resolved := r !! "Resolved";
     raw_AvgTalkDuration := r !! "AvgTalkDuration" |}.

(** What stops the program before it serves: the [ValueError] of line 16
    with the missing labels, the [ValueError] of [int] on NaN (line 105),
    or an exception of the normalisation. *)
Inductive startup_exn :=
  | MissingColumns (missing : gset string)
  | NaNToInt
  | Uncaught (e : exn).

(** [Series.min()] and [Series.max()]; [None] is the NaN (or NaT) of the
    empty series. *)
Definition min_Q (l : list Q) : option Q :=
  match l with [] => None | x :: tl => Some (foldr Qmin x tl) end.
Definition max_Q (l : list Q) : option Q :=
  match l with [] => None | x :: tl => Some (foldr Qmax x tl) end.
Definition min_Z (l : list Z) : option Z :=
  match l with [] => None | x :: tl => Some (foldr Z.min x tl) end.
Definition max_Z (l : list Z) : option Z :=
  match l with [] => None | x :: tl => Some (foldr Z.max x tl) end.

(** [Series.unique()]: the distinct values in order of first appearance. *)
Fixpoint unique (l : list string) : list string :=
  match l with
  | [] => []
  | x :: tl => x :: List.filter (fun y => negb (String.eqb y x)) (unique tl)
  end.

(** [int(x)] on a finite float: truncation towards zero. *)
Definition py_int (q : Q) : Z := Z.quot (Qnum q) (Z.pos (Qden q)).

(** Line 105: [{int(min_duration): str(...), int(max_duration): str(...)}]. *)
Definition slider_marks (lo hi : Q) : gmap Z string :=
  <[py_int hi := pretty (py_int hi)]> {[ py_int lo := pretty (py_int lo) ]}.

(** What the layout is built from: the frame, the options of the sentiment
    dropdown (line 65), the initial values of the five inputs (lines 66,
    76-77, 87, 104) and the marks of the slider (line 105). *)
Record dashboard := {
  dataset : list CallRecord;
  sentiment_options : list string;
  initial_criteria : FilterCriteria;
  marks : gmap Z string
}.

(** Lines 32 and 53-132 on the normalised frame. On a frame without rows
    the two duration bounds are NaN and [int] raises on line 105. *)
Definition layout (df : list CallRecord) : startup_exn + dashboard :=
  match min_Z (Date <$> df), max_Z (Date <$> df),
        min_Q (AvgTalkDuration <$> df), max_Q (AvgTalkDuration <$> df) with
  | Some first_day, Some last_day, Some min_duration, Some max_duration =>
      inr {| dataset := df;
             sentiment_options := unique (Sentiment <$> df);
             initial_criteria :=
               {| selected_sentiments := None;
                  start_date := first_day;
                  end_date := last_day;
                  resolved_status := None;
                  duration_range := (min_duration, max_duration) |};
             marks := slider_marks min_duration max_duration |}
  | _, _, _, _ => inl NaNToInt
  end.

Section Startup.
Variable to_datetime : cell -> option Z.
Variable to_timedelta_seconds : cell -> option Q.

(** Lines 10-132: from the loaded frame to the layout. *)
Definition startup (fr : sheet_frame) : startup_exn + dashboard :=
  if decide (missing_columns fr = ∅) then
    match normalize to_datetime to_timedelta_seconds (as_raw_row <$> sheet_rows fr) with
    | Ok df => layout df
    | Raise e => inl (Uncaught e)
    end
  else inl (MissingColumns (missing_columns fr)).
End Startup.

(** The three labels [classify_sentiment] returns. *)
Definition sentiment_labels : list string := ["Positive"; "Neutral"; "Negative"].

(** The four clauses of lines 154-165 as one mask. *)
Definition row_mask (c : FilterCriteria) (r : CallRecord) : bool :=
  (negb (truthy_list (selected_sentiments c)) || isin (selected_sentiments c) r)
  && date_mask c r
  && (negb (truthy_str (resolved_status c)) || resolved_mask (resolved_status c) r)
  && duration_mask c r.

(** The rows a count is taken over. *)
Definition count_where {A} (p : A -> bool) (l : list A) : nat :=
  length (List.filter p l).

Module History.

Definition is_delete (ev : Store.event) : bool :=
  match Store.triggered ev with
  | Some b => negb (String.eqb b "save-view-btn") && String.eqb b "delete-all-btn"
  | None => false
  end.

(** The saves since the last "Delete All", counting on from [n]. *)
Fixpoint pending (evs : list Store.event) (n : nat) : nat :=
  match evs with
  | [] => n
  | ev :: evs' =>
      pending evs' (if Store.is_save ev then S n
                    else if is_delete ev then 0%nat else n)
  end.

(** The table holds a gap-free run of rowids that ends at
    [sqlite_sequence]. *)
Definition consecutive (db : Store.database) : Prop :=
  let n := Z.of_nat (length (Store.past_filters db)) in
  Store.ids db = seqZ (Store.sqlite_sequence db - n + 1) n.

End History.

(** ** Example data *)

Module Sample.

(** The parsers on the cells of the examples: a whole number is a count of
    nanoseconds, a date-time is itself, a time of day is the time since
    midnight, the listed strings parse to the listed values, anything else
    does not parse. *)
Definition to_datetime (c : cell) : option Z :=
  match c with
  | Some (Num q) => if (Qden q =? 1)%positive then Some (Qnum q) else None
  | Some (Text s) =>
      if String.eqb s "2024-01-10" then Some 1704844800000000000
      else if String.eqb s "2024-01-15" then Some 1705276800000000000
      else None
  | Some (Temporal DateTime t) => Some t
  | _ => None
  end.

Definition to_timedelta_seconds (c : cell) : option Q :=
  match c with
  | Some (Num q) =>
      if (Qden q =? 1)%positive then Some (Qnum q # 1000000000) else None
  | Some (Text s) =>
      if String.eqb s "00:02:00" then Some (120 # 1)
      else if String.eqb s "00:05:00" then Some (300 # 1)
      else None
  | Some (Temporal TimeOfDay t) => Some (t # 1000000000)
  | _ => None
  end.

Definition strftime_Ym (t : Z) : string :=
  if (1704067200000000000 <=? t) && (t <? 1706745600000000000)
  then "2024-01" else "other".

Definition row (rt date res dur : cell) : raw_row :=
  {| raw_rating := rt; raw_Date := date;
     raw_Resolved := res; raw_AvgTalkDuration := dur |}.

Definition txt (s : string) : cell := Some (Text s).
Definition num (z : Z) : cell := Some (Num (Qc_of_Z z)).

Definition sheet : list raw_row :=
  [ row (num 5) (txt "2024-01-10") (txt "Y") (txt "00:02:00");
    row (num 2) (txt "2024-01-15") (txt "N") (txt "00:05:00");
    row (num 4) (txt "n/a") (txt "Y") (txt "00:02:00");
    row NaN (txt "2024-01-15") (txt "Y") (txt "00:05:00") ].

Definition row_missing_rating : raw_row :=
  row NaN (txt "2024-01-15") (txt "Y") (txt "00:05:00").

Definition rec1 : CallRecord :=
  {| rating := num 5; Date := 1704844800000000000; Resolved := Text "Y";
     AvgTalkDuration := 120 # 1; Sentiment := "Positive" |}.
Definition rec2 : CallRecord :=
  {| rating := num 2; Date := 1705276800000000000; Resolved := Text "N";
     AvgTalkDuration := 300 # 1; Sentiment := "Negative" |}.
Definition rec_missing_rating : CallRecord :=
  {| rating := NaN; Date := 1705276800000000000; Resolved := Text "Y";
     AvgTalkDuration := 300 # 1; Sentiment := "Negative" |}.

Definition records : list CallRecord := [rec1; rec2].

(** January 2024, no sentiment or resolution filter, durations 0..400. *)
Definition criteria : FilterCriteria :=
  {| selected_sentiments := Some [];
     start_date := 1704067200000000000;
     end_date := 1706659200000000000;
     resolved_status := None;
     duration_range := (0 # 1, 400 # 1) |}.

Definition criteria_short : FilterCriteria :=
  {| selected_sentiments := None;
     start_date := 1704067200000000000;
     end_date := 1706659200000000000;
     resolved_status := None;
     duration_range := (0 # 1, 200 # 1) |}.

(** An inverted date range. *)
Definition criteria_inverted : FilterCriteria :=
  {| selected_sentiments := None;
     start_date := 1706659200000000000;
     end_date := 1704067200000000000;
     resolved_status := None;
     duration_range := (0 # 1, 400 # 1) |}.

Definition str_sentiment (x : option (list string)) : string :=
  match x with
  | None => "None"
  | Some l => "[" ++ String.concat ", " (map (fun s => "'" ++ s ++ "'") l) ++ "]"
  end.

(** The slider value of [state] as Python prints it. *)
Definition str_range (x : Q * Q) : string :=
  if Qeq_bool (fst x) 0 && Qeq_bool (snd x) 400 then "[0, 400]" else "[..., ...]".

Definition state : Store.view_state :=
  {| Store.st_sentiment := Some ["Negative"];
     Store.st_start_date := Some "2024-01-01";
     Store.st_end_date := Some "2024-01-31";
     Store.st_resolved := None;
     Store.st_duration_range := (0 # 1, 400 # 1) |}.

(** Save twice, clear, view. *)
Definition clicks : list Store.event :=
  [ Store.click "save-view-btn" state;
    Store.click "save-view-btn" state;
    Store.click "delete-all-btn" state;
    Store.click "view-past-btn" state ].

Definition sheet_row (rt date res dur : cell) : gmap string value :=
  list_to_map (omap (fun kv => pair kv.1 <$> kv.2)
    [ ("Satisfaction rating", rt); ("Date", date);
      ("Resolved", res); ("AvgTalkDuration", dur) ]).

(** The sheet of the examples as a frame, with a column the program does
    not use. *)
Definition frame : sheet_frame :=
  {| sheet_columns :=
       ["Call Id"; "Satisfaction rating"; "Date"; "Resolved"; "AvgTalkDuration"];
     sheet_rows :=
       [ sheet_row (num 5) (txt "2024-01-10") (txt "Y") (txt "00:02:00");
         sheet_row (num 2) (txt "2024-01-15") (txt "N") (txt "00:05:00");
         sheet_row (num 4) (txt "n/a") (txt "Y") (txt "00:02:00");
         sheet_row NaN (txt "2024-01-15") (txt "Y") (txt "00:05:00") ] |}.

(** A frame without a [Date] column. *)
Definition frame_no_date : sheet_frame :=
  {| sheet_columns := ["Satisfaction rating"; "Resolved"; "AvgTalkDuration"];
     sheet_rows := [] |}.

(** A frame none of whose rows has a date that parses. *)
Definition frame_unusable : sheet_frame :=
  {| sheet_columns := ["Satisfaction rating"; "Date"; "Resolved"; "AvgTalkDuration"];
     sheet_rows :=
       [ sheet_row (num 4) (txt "n/a") (txt "Y") (txt "00:02:00") ] |}.

(** A frame with a rating that is a string. *)
Definition frame_text_rating : sheet_frame :=
  {| sheet_columns := ["Satisfaction rating"; "Date"; "Resolved"; "AvgTalkDuration"];
     sheet_rows :=
       [ sheet_row (txt "five") (txt "2024-01-10") (txt "Y") (txt "00:02:00") ] |}.

(** Every sentiment selected. *)
Definition criteria_every_sentiment : FilterCriteria :=
  {| selected_sentiments := Some ["Negative"; "Neutral"; "Positive"];
     start_date := 1704067200000000000;
     end_date := 1706659200000000000;
     resolved_status := None;
     duration_range := (0 # 1, 400 # 1) |}.

(** What the layout is built from for [frame]. *)
Definition board : dashboard :=
  {| dataset := [rec1; rec2; rec_missing_rating];
     sentiment_options := ["Positive"; "Negative"];
     initial_criteria :=
       {| selected_sentiments := None;
          start_date := 1704844800000000000;
          end_date := 1705276800000000000;
          resolved_status := None;
          duration_range := (120 # 1, 300 # 1) |};
     marks := slider_marks (120 # 1) (300 # 1) |}.

End Sample.

(** * Properties *)

(** ** RecordNormalizer *)

Lemma classify_sentiment_num (q : Qc) :
  classify_sentiment (Some (Num q)) =
    Ok (if bool_decide (Qc_of_Z 4 <= q)%Qc then "Positive"
        else if bool_decide (q = Qc_of_Z 3) then "Neutral" else "Negative").
Proof.
  unfold classify_sentiment, py_ge, py_eq, mbind, result_bind.
  destruct (bool_decide (Qc_of_Z 4 <= q)%Qc), (bool_decide (q = Qc_of_Z 3));
    reflexivity.
Qed.

Lemma classify_sentiment_nan : classify_sentiment NaN = Ok "Negative".
Proof. reflexivity. Qed.

Lemma classify_sentiment_text (s : string) :
  classify_sentiment (Some (Text s)) = Raise TypeError.
Proof. reflexivity. Qed.

Lemma classify_sentiment_temporal (k : temporal) (ns : Z) :
  classify_sentiment (Some (Temporal k ns)) = Raise TypeError.
Proof. reflexivity. Qed.

Lemma classify_sentiment_comparable (rating : cell) :
  comparable rating -> exists s, classify_sentiment rating = Ok s.
Proof.
  destruct rating as [[q|t|k ns]|]; simpl; intros Hc.
  - rewrite classify_sentiment_num. eauto.
  - contradiction.
  - contradiction.
  - exists "Negative". reflexivity.
Qed.

Lemma classify_sentiment_not_comparable (rating : cell) :
  ~ comparable rating -> classify_sentiment rating = Raise TypeError.
Proof.
  destruct rating as [[q|t|k ns]|]; simpl; intros Hc.
  - destruct Hc. exact I.
  - reflexivity.
  - reflexivity.
  - destruct Hc. exact I.
Qed.

Lemma classify_sentiment_raise (rating : cell) (e : exn) :
  classify_sentiment rating = Raise e -> e = TypeError.
Proof.
  destruct rating as [[q|t|k ns]|].
  - rewrite classify_sentiment_num. discriminate.
  - rewrite classify_sentiment_text. congruence.
  - rewrite classify_sentiment_temporal. congruence.
  - discriminate.
Qed.

(** A rating of 2.5 is classified Negative although it is not [<= 2]. *)
Lemma classify_sentiment_fraction :
  classify_sentiment (Some (Num (Q2Qc (5 # 2)))) = Ok "Negative"
  /\ ~ (Q2Qc (5 # 2) <= Qc_of_Z 2)%Qc.
Proof.
  split; [vm_compute; reflexivity|].
  intros Hle. vm_compute in Hle. apply Hle. reflexivity.
Qed.

(** C3 (amended): on every number [q] the classifier returns a label,
    never an exception: Positive exactly when [q >= 4], Neutral exactly
    when [q = 3], Negative in every other case, that is exactly when
    [q < 4] and [q <> 3]; when [q] is a whole number that is exactly when
    [q <= 2]. The missing rating is classified Negative as well. *)
Theorem classify_sentiment_spec (q : Qc) :
  classify_sentiment NaN = Ok "Negative"
  /\ exists s, classify_sentiment (Some (Num q)) = Ok s
    /\ (s = "Positive" <-> (Qc_of_Z 4 <= q)%Qc)
    /\ (s = "Neutral" <-> q = Qc_of_Z 3)
    /\ (s = "Negative" <-> (q < Qc_of_Z 4)%Qc /\ q <> Qc_of_Z 3)
    /\ (forall r : Z, q = Qc_of_Z r -> (s = "Negative" <-> r <= 2)).
Proof.
  split; [apply classify_sentiment_nan|].
  rewrite classify_sentiment_num.
  destruct (decide (Qc_of_Z 4 <= q)%Qc) as [Hge|Hlt].
  - rewrite bool_decide_eq_true_2 by exact Hge.
    exists "Positive". split; [reflexivity|].
    split; [tauto|]. split; [|split].
    + split; [discriminate|]. intros ->.
      apply Z2Qc_inj_le in Hge. lia.
    + split; [discriminate|]. intros [Hq _].
      exfalso. exact (Qclt_not_le _ _ Hq Hge).
    + intros r ->. apply Z2Qc_inj_le in Hge.
      split; [discriminate|lia].
  - rewrite bool_decide_eq_false_2 by exact Hlt.
    destruct (decide (q = Qc_of_Z 3)) as [Heq|Hne].
    + rewrite bool_decide_eq_true_2 by exact Heq.
      exists "Neutral". split; [reflexivity|].
      split; [split; [discriminate|intros Hge; contradiction]|].
      split; [tauto|]. split.
      * split; [discriminate|]. intros [_ Hq]. contradiction.
      * intros r Hr. rewrite Hr in Heq. apply Z2Qc_inj in Heq.
        split; [discriminate|lia].
    + rewrite bool_decide_eq_false_2 by exact Hne.
      exists "Negative". split; [reflexivity|].
      split; [split; [discriminate|intros Hge; contradiction]|].
      split; [split; [discriminate|intros Heq; contradiction]|].
      split.
      * split; [|reflexivity]. intros _.
        split; [apply Qcnot_le_lt, Hlt|exact Hne].
      * intros r ->. split; [|reflexivity]. intros _.
        assert (r <> 3) by (intros ->; apply Hne; reflexivity).
        assert (~ 4 <= r) by (intros Hr; apply Hlt; apply (proj1 (Z2Qc_inj_le 4 r)); exact Hr).
        lia.
Qed.

Section RecordNormalizerProps.
Variable to_datetime : cell -> option Z.
Variable to_timedelta_seconds : cell -> option Q.

Local Abbreviation parse := (parse_row to_datetime to_timedelta_seconds).
Local Abbreviation load := (normalize to_datetime to_timedelta_seconds).
Local Abbreviation kept := (present to_datetime to_timedelta_seconds).
Local Abbreviation is_record_of := (record_of to_datetime to_timedelta_seconds).

Lemma parse_row_ok (r : raw_row) (s : string) :
  classify_sentiment (raw_rating r) = Ok s ->
  parse r =
    Ok {| p_rating := raw_rating r;
          p_Date := to_datetime (raw_Date r);
          p_Resolved := raw_Resolved r;
          p_AvgTalkDuration := to_timedelta_seconds (raw_AvgTalkDuration r);
          p_Sentiment := Some s |}.
Proof. intros Hs. unfold parse_row. rewrite Hs. reflexivity. Qed.

Lemma parse_row_raise (r : raw_row) (e : exn) :
  classify_sentiment (raw_rating r) = Raise e -> parse r = Raise e.
Proof. intros Hs. unfold parse_row. rewrite Hs. reflexivity. Qed.

(** The derived column is never missing. *)
Lemma parse_row_sentiment (r : raw_row) (p : parsed_row) :
  parse r = Ok p -> is_Some (p_Sentiment p).
Proof.
  unfold parse_row.
  destruct (classify_sentiment (raw_rating r)) as [s|e]; simpl; [|discriminate].
  intros [= <-]. simpl. eauto.
Qed.

(** What [dropna] does with a parsed row. *)
Lemma dropna_row_present (r : raw_row) (s : string) (p : parsed_row) :
  parse r = Ok p ->
  classify_sentiment (raw_rating r) = Ok s ->
  (kept r /\ exists rec, dropna_row p = Some rec /\ is_record_of r rec)
  \/ (~ kept r /\ dropna_row p = None).
Proof.
  intros Hp Hs. rewrite (parse_row_ok r s Hs) in Hp. injection Hp as <-.
  unfold dropna_row, present, record_of. simpl.
  destruct (to_datetime (raw_Date r)) as [d|];
    [destruct (to_timedelta_seconds (raw_AvgTalkDuration r)) as [t|];
      [destruct (raw_Resolved r) as [v|]|]|].
  - left. split; [eauto|]. eexists. split; [reflexivity|]. simpl. auto.
  - right. split; [|reflexivity]. intros (_ & _ & [x Hx]). discriminate.
  - right. split; [|reflexivity]. intros (_ & [x Hx] & _). discriminate.
  - right. split; [|reflexivity]. intros ([x Hx] & _). discriminate.
Qed.

Lemma series_parse_rows (sheet : list raw_row) :
  Forall (fun r => comparable (raw_rating r)) sheet ->
  exists ps, series_apply parse sheet = Ok ps
    /\ Forall2 is_record_of (filter kept sheet) (dropna ps).
Proof.
  induction 1 as [|r sheet Hr _ IH].
  - exists []. split; [reflexivity|constructor].
  - destruct IH as (ps & Hps & Hrel).
    destruct (classify_sentiment_comparable _ Hr) as [s Hs].
    pose proof (parse_row_ok r s Hs) as Hp.
    eexists (_ :: ps). split.
    { simpl. rewrite Hp, Hps. reflexivity. }
    destruct (dropna_row_present r s _ Hp Hs)
      as [(Hin & rec & Hrec & Hof)|(Hout & Hrec)].
    + rewrite filter_cons_True by exact Hin.
      unfold dropna. simpl. rewrite Hrec. constructor; assumption.
    + rewrite filter_cons_False by exact Hout.
      unfold dropna. simpl. rewrite Hrec. exact Hrel.
Qed.

(** A rating that is neither a number nor missing stops the load: no
    frame is produced. *)
Lemma normalize_malformed_rating (sheet : list raw_row) (r : raw_row) :
  In r sheet -> ~ comparable (raw_rating r) -> load sheet = Raise TypeError.
Proof.
  intros Hin Ht. unfold normalize.
  assert (Hs : series_apply parse sheet = Raise TypeError).
  { induction sheet as [|x sheet IH]; [destruct Hin|].
    simpl. destruct (classify_sentiment (raw_rating x)) as [s|e] eqn:Hx.
    - rewrite (parse_row_ok x s Hx). simpl.
      destruct Hin as [->|Hin].
      + rewrite (classify_sentiment_not_comparable _ Ht) in Hx. discriminate.
      + rewrite (IH Hin). reflexivity.
    - rewrite (parse_row_raise x e Hx). simpl.
      rewrite (classify_sentiment_raise _ _ Hx). reflexivity. }
  rewrite Hs. reflexivity.
Qed.


(** C10: a row whose rating is missing is classified, as Negative; its
    sentiment cell is populated, and it is kept exactly when its date,
    duration and resolution flag are present. No row the classifier
    returns on has a missing sentiment cell. *)
Theorem missing_rating_total (r : raw_row) :
  raw_rating r = NaN ->
  classify_sentiment (raw_rating r) = Ok "Negative"
  /\ (exists p, parse r = Ok p
       /\ p_Sentiment p = Some "Negative"
       /\ (is_Some (dropna_row p) <-> kept r))
  /\ (forall r' p', parse r' = Ok p' -> is_Some (p_Sentiment p')).
Proof.
  intros Hnan.
  assert (Hs : classify_sentiment (raw_rating r) = Ok "Negative")
    by (rewrite Hnan; apply classify_sentiment_nan).
  split; [exact Hs|]. split; [|apply parse_row_sentiment].
  pose proof (parse_row_ok r _ Hs) as Hp.
  eexists. split; [exact Hp|]. split; [reflexivity|].
  destruct (dropna_row_present r _ _ Hp Hs)
    as [(Hin & rec & Hrec & _)|(Hout & Hrec)]; rewrite Hrec.
  - split; eauto.
  - split; [intros [x Hx]; discriminate|intros; contradiction].
Qed.
End RecordNormalizerProps.

(** ** FilterEngine *)

Lemma isin_spec (sel : list string) (r : CallRecord) :
  isin (Some sel) r = true <-> In (Sentiment r) sel.
Proof.
  unfold isin. simpl. rewrite bool_decide_eq_true. apply list_elem_of_In.
Qed.

Lemma date_mask_spec (c : FilterCriteria) (r : CallRecord) :
  date_mask c r = true <-> date_clause c r.
Proof.
  unfold date_mask, date_clause.
  rewrite andb_true_iff, !Z.leb_le. reflexivity.
Qed.

Lemma resolved_mask_spec (s : string) (r : CallRecord) :
  resolved_mask (Some s) r = true <-> Resolved r = Text s.
Proof.
  unfold resolved_mask. destruct (Resolved r) as [q|t|k ns].
  - split; discriminate.
  - rewrite String.eqb_eq. split; congruence.
  - split; discriminate.
Qed.

Lemma duration_mask_spec (c : FilterCriteria) (r : CallRecord) :
  duration_mask c r = true <-> duration_clause c r.
Proof.
  unfold duration_mask, duration_clause.
  rewrite andb_true_iff, !Qle_bool_iff. reflexivity.
Qed.

Lemma truthy_list_spec {A} (x : option (list A)) :
  truthy_list x = true <-> exists l, x = Some l /\ l <> [].
Proof.
  destruct x as [[|a l]|]; simpl; split;
    try discriminate; try (intros (l' & [= <-] & Hne); congruence);
    try (intros (l' & [=] & _)).
  intros _. exists (a :: l). split; [reflexivity|discriminate].
Qed.

Lemma truthy_str_spec (x : option string) :
  truthy_str x = true <-> exists s, x = Some s /\ s <> "".
Proof.
  destruct x as [s|]; simpl.
  - rewrite negb_true_iff. split.
    + intros Hs. exists s. split; [reflexivity|].
      intros ->. discriminate.
    + intros (s' & [= <-] & Hne). apply String.eqb_neq. exact Hne.
  - split; [discriminate|intros (s & [=] & _)].
Qed.

(** The sentiment stage (lines 154-155). *)
Lemma sentiment_stage_In (df : list CallRecord) (c : FilterCriteria) (r : CallRecord) :
  In r (if truthy_list (selected_sentiments c)
        then List.filter (isin (selected_sentiments c)) df else df)
  <-> In r df /\ sentiment_clause c r.
Proof.
  unfold sentiment_clause.
  destruct (truthy_list (selected_sentiments c)) eqn:Ht.
  - apply truthy_list_spec in Ht as (sel & Hsel & Hne).
    rewrite filter_In, Hsel, isin_spec. split.
    + intros [Hin Hs]. split; [exact Hin|]. intros sel' [= <-] _. exact Hs.
    + intros [Hin Hs]. split; [exact Hin|]. apply Hs; [reflexivity|exact Hne].
  - split; [|tauto]. intros Hin. split; [exact Hin|].
    intros sel Hsel Hne.
    assert (truthy_list (selected_sentiments c) = true) as Htrue
      by (apply truthy_list_spec; eauto).
    congruence.
Qed.

(** The resolution stage (lines 159-160). *)
Lemma resolved_stage_In (df : list CallRecord) (c : FilterCriteria) (r : CallRecord) :
  In r (if truthy_str (resolved_status c)
        then List.filter (resolved_mask (resolved_status c)) df else df)
  <-> In r df /\ resolved_clause c r.
Proof.
  unfold resolved_clause.
  destruct (truthy_str (resolved_status c)) eqn:Ht.
  - apply truthy_str_spec in Ht as (s & Hs & Hne).
    rewrite filter_In, Hs, resolved_mask_spec. split.
    + intros [Hin Hr]. split; [exact Hin|]. intros s' [= <-] _. exact Hr.
    + intros [Hin Hr]. split; [exact Hin|]. apply Hr; [reflexivity|exact Hne].
  - split; [|tauto]. intros Hin. split; [exact Hin|].
    intros s Hs Hne.
    assert (truthy_str (resolved_status c) = true) as Htrue
      by (apply truthy_str_spec; eauto).
    congruence.
Qed.

Lemma filtered_df_In (df : list CallRecord) (c : FilterCriteria) (r : CallRecord) :
  In r (filtered_df df c) <-> In r df /\ satisfies c r.
Proof.
  unfold filtered_df, satisfies.
  rewrite filter_In, resolved_stage_In, filter_In, sentiment_stage_In,
    date_mask_spec, duration_mask_spec.
  tauto.
Qed.

(** C1: a record is in the filtered subset exactly when it is in the
    record set and satisfies every active clause: sentiment membership when
    a non-empty selection is given, the inclusive date range, resolution
    equality when a non-empty status is given, the inclusive duration
    range. *)
Theorem filtered_df_characterization
    (df : list CallRecord) (c : FilterCriteria) (r : CallRecord) :
  In r (filtered_df df c) <-> In r df /\ satisfies c r.
Proof. apply filtered_df_In. Qed.

(** C2: with an absent or empty sentiment selection the filter returns
    what the pipeline without the sentiment clause returns, record for
    record, and so a subset of the same size. *)
Theorem empty_sentiments_no_filter (df : list CallRecord) (c : FilterCriteria) :
  selected_sentiments c = None \/ selected_sentiments c = Some [] ->
  filtered_df df c = filtered_df_without_sentiment df c
  /\ length (filtered_df df c) = length (filtered_df_without_sentiment df c).
Proof.
  intros Hsel.
  assert (Heq : filtered_df df c = filtered_df_without_sentiment df c).
  { unfold filtered_df, filtered_df_without_sentiment.
    destruct Hsel as [-> | ->]; reflexivity. }
  split; [exact Heq|]. rewrite Heq. reflexivity.
Qed.

(** C9: an inverted date range, or an inverted duration range, is not
    rejected: the filter returns the empty subset. *)
Theorem inverted_range_empty (df : list CallRecord) (c : FilterCriteria) :
  end_date c < start_date c
  \/ (snd (duration_range c) < fst (duration_range c))%Q ->
  filtered_df df c = [].
Proof.
  intros Hinv. destruct (filtered_df df c) as [|r l] eqn:Hf; [reflexivity|].
  assert (Hin : In r (filtered_df df c)) by (rewrite Hf; left; reflexivity).
  apply filtered_df_In in Hin as (_ & _ & Hdate & _ & Hlo & Hhi).
  unfold date_clause in Hdate.
  destruct Hinv as [Hd | Hq]; [lia|].
  exfalso. apply (Qlt_not_le _ _ Hq). eapply Qle_trans; eassumption.
Qed.

(** ** AggregationSuite *)

Section GroupSize.
Context `{Countable K}.

Lemma total_empty : total (∅ : gmap K nat) = 0%nat.
Proof. unfold total. apply map_fold_empty. Qed.

Lemma total_insert_fresh (m : gmap K nat) (k : K) (n : nat) :
  m !! k = None -> total (<[k := n]> m) = (n + total m)%nat.
Proof.
  intros Hk. unfold total.
  rewrite map_fold_insert_L; [reflexivity| |exact Hk].
  intros. lia.
Qed.

(** Counting one more row of group [k] adds one to the sum of the counts. *)
Lemma total_bump (m : gmap K nat) (k : K) :
  total (<[k := S (default 0%nat (m !! k))]> m) = S (total m).
Proof.
  destruct (m !! k) as [n|] eqn:Hk; simpl.
  - rewrite <- (insert_delete_eq m k (S n)).
    rewrite total_insert_fresh by apply lookup_delete_eq.
    rewrite <- (insert_delete_id m k n Hk) at 2.
    rewrite total_insert_fresh by apply lookup_delete_eq.
    reflexivity.
  - rewrite total_insert_fresh by exact Hk. reflexivity.
Qed.

Lemma group_size_total (keys : list K) :
  total (group_size keys) = length keys.
Proof.
  induction keys as [|k keys IH]; simpl.
  - apply total_empty.
  - rewrite total_bump, IH. reflexivity.
Qed.

(** The count of group [k] is the number of rows whose key is [k]. *)
Lemma group_size_lookup (keys : list K) (k : K) :
  default 0%nat (group_size keys !! k)
  = length (List.filter (fun x => bool_decide (x = k)) keys).
Proof.
  induction keys as [|x keys IH]; simpl.
  - rewrite lookup_empty. reflexivity.
  - destruct (decide (x = k)) as [->|Hne].
    + rewrite lookup_insert_eq, bool_decide_eq_true_2 by reflexivity.
      simpl. rewrite IH. reflexivity.
    + rewrite lookup_insert_ne, bool_decide_eq_false_2 by exact Hne.
      exact IH.
Qed.

(** A group exists only for a key that occurs. *)
Lemma group_size_lookup_None (keys : list K) (k : K) :
  group_size keys !! k = None <-> ~ In k keys.
Proof.
  induction keys as [|x keys IH]; simpl.
  - rewrite lookup_empty. tauto.
  - destruct (decide (x = k)) as [->|Hne].
    + rewrite lookup_insert_eq. split; [discriminate|tauto].
    + rewrite lookup_insert_ne by exact Hne. rewrite IH. tauto.
Qed.
End GroupSize.

Lemma filter_map_length {A B} `{EqDecision B} (f : A -> B) (p : A -> bool)
    (l : list A) (b : B) :
  length (List.filter (fun x => bool_decide (x = b)) (f <$> List.filter p l))
  = length (List.filter (fun a => p a && bool_decide (f a = b)) l).
Proof.
  induction l as [|a l IH]; simpl; [reflexivity|].
  destruct (p a); simpl; [|exact IH].
  destruct (bool_decide (f a = b)); simpl; [f_equal|]; exact IH.
Qed.

(** C5: on every filtered subset the churn indicator counts, for each
    resolution value, the records that are Negative and have that value,
    has no group for a value no Negative record carries, and the counts of
    all its groups sum to the number of Negative records of the subset. *)
Theorem churn_conservation (df : list CallRecord) (c : FilterCriteria) :
  let fdf := filtered_df df c in
  total (ChurnIndicator fdf) = length (List.filter is_negative fdf)
  /\ (forall v : value,
        default 0%nat (ChurnIndicator fdf !! v)
        = length (List.filter
                    (fun r => is_negative r && bool_decide (Resolved r = v)) fdf))
  /\ (forall v : value,
        ChurnIndicator fdf !! v = None
        <-> ~ exists r, In r fdf /\ Sentiment r = "Negative" /\ Resolved r = v).
Proof.
  intros fdf. unfold ChurnIndicator. split; [|split].
  - rewrite group_size_total, length_fmap. reflexivity.
  - intros v. rewrite group_size_lookup. apply filter_map_length.
  - intros v. rewrite group_size_lookup_None.
    rewrite <- list_elem_of_In, list_elem_of_fmap.
    split; intros Hn Hex; apply Hn.
    + destruct Hex as (r & Hin & Hneg & Hres).
      exists r. split; [symmetry; exact Hres|].
      apply list_elem_of_In, filter_In. split; [exact Hin|].
      unfold is_negative. apply String.eqb_eq. exact Hneg.
    + destruct Hex as (r & Hres & Hin).
      apply list_elem_of_In, filter_In in Hin as [Hin Hneg].
      exists r. split; [exact Hin|]. split; [|symmetry; exact Hres].
      apply String.eqb_eq. exact Hneg.
Qed.

Lemma unstack_fillna_empty `{Countable K1, Countable K2} :
  unstack_fillna (∅ : gmap (K1 * K2) nat) = ∅.
Proof.
  unfold unstack_fillna. rewrite dom_empty_L, !set_map_empty.
  unfold set_to_map. rewrite elements_empty. reflexivity.
Qed.

(** On the empty subset each of the five aggregations evaluates to the
    empty result: no group and no row. *)
Lemma aggregations_empty (strftime_Ym : Z -> string) :
  SentimentDistribution [] = ∅
  /\ SentimentTrend strftime_Ym [] = ∅
  /\ ResolutionImpact [] = ∅
  /\ DurationBySentiment [] = ∅
  /\ ChurnIndicator [] = ∅.
Proof.
  unfold SentimentDistribution, SentimentTrend, ResolutionImpact,
    DurationBySentiment, ChurnIndicator. simpl.
  split; [reflexivity|]. split; [apply unstack_fillna_empty|].
  repeat split.
Qed.

(** ** FilterHistoryStore *)

Section StoreProps.
Import Store.
Variable str_sentiment : option (list string) -> string.
Variable str_range : Q * Q -> string.

Local Abbreviation handle := (handle_past_data str_sentiment str_range).
Local Abbreviation runs := (run str_sentiment str_range).
Local Abbreviation values_of := (insert_values str_sentiment str_range).

Lemma wf_fresh : wf fresh_database.
Proof.
  unfold wf, ids. simpl. repeat split; [constructor|constructor|lia].
Qed.

Lemma largest_rowid_bound (rows : list past_filter) (n : Z) :
  0 <= n -> Forall (fun i => i <= n) (id <$> rows) -> largest_rowid rows <= n.
Proof.
  intros Hn. unfold largest_rowid.
  induction 1 as [|i l Hi _ IH]; simpl; lia.
Qed.

Lemma wf_largest (db : database) :
  wf db ->
  Z.max (sqlite_sequence db) (largest_rowid (past_filters db)) = sqlite_sequence db.
Proof.
  intros (_ & Hb & H0).
  apply Z.max_l, largest_rowid_bound; [exact H0|].
  eapply Forall_impl; [exact Hb|]. simpl. intros; lia.
Qed.

Lemma StronglySorted_snoc (l : list Z) (x : Z) :
  StronglySorted Z.lt l -> Forall (fun i => i < x) l ->
  StronglySorted Z.lt (l ++ [x]).
Proof.
  induction 1 as [|a l Hs IH Ha]; intros Hlt; simpl.
  - repeat constructor.
  - inversion Hlt as [|? ? Hax Hl]; subst.
    constructor; [apply IH; exact Hl|].
    apply Forall_app. split; [exact Ha|]. constructor; [exact Hax|constructor].
Qed.

(** INSERT on a well-formed database that has not used up the rowids. *)
Lemma sql_insert_wf (vals : filter_columns) (db : database) :
  wf db -> sqlite_sequence db < max_rowid ->
  let r := {| id := sqlite_sequence db + 1; columns := vals |} in
  let db' := {| past_filters := past_filters db ++ [r];
                sqlite_sequence := sqlite_sequence db + 1 |} in
  sql_insert vals db = Ok db' /\ wf db'.
Proof.
  intros Hwf Hlt r db'. split.
  - unfold sql_insert. rewrite (wf_largest db Hwf).
    destruct (Z.leb_spec max_rowid (sqlite_sequence db)); [lia|reflexivity].
  - destruct Hwf as (Hs & Hb & H0). unfold wf, ids in *. simpl.
    rewrite fmap_app. simpl. repeat split.
    + apply StronglySorted_snoc; [exact Hs|].
      eapply Forall_impl; [exact Hb|]. simpl. intros; lia.
    + apply Forall_app. split.
      * eapply Forall_impl; [exact Hb|]. simpl. intros; lia.
      * constructor; [lia|constructor].
    + lia.
Qed.

(** INSERT fails once the largest rowid has been used. *)
Lemma sql_insert_full (vals : filter_columns) (db : database) :
  max_rowid <= sqlite_sequence db -> sql_insert vals db = Raise OperationalError.
Proof.
  intros Hfull. unfold sql_insert.
  destruct (Z.leb_spec max_rowid
    (Z.max (sqlite_sequence db) (largest_rowid (past_filters db)))); [reflexivity|lia].
Qed.

Lemma wf_delete_all (db : database) : wf db -> wf (sql_delete_all db).
Proof.
  intros (_ & _ & H0). unfold wf, ids. simpl.
  repeat split; [constructor|constructor|exact H0].
Qed.

Lemma handle_save (st : view_state) (db : database) :
  wf db -> sqlite_sequence db < max_rowid ->
  let r := {| id := sqlite_sequence db + 1; columns := values_of st |} in
  let db' := {| past_filters := past_filters db ++ [r];
                sqlite_sequence := sqlite_sequence db + 1 |} in
  handle (click "save-view-btn" st) db = Ok (db', Some (past_filters db ++ [r])%list)
  /\ wf db'.
Proof.
  intros Hwf Hlt r db'.
  destruct (sql_insert_wf (values_of st) db Hwf Hlt) as [Hins Hwf'].
  split; [|exact Hwf'].
  unfold handle_past_data, click. simpl. rewrite Hins. reflexivity.
Qed.

Lemma handle_delete_all (st : view_state) (db : database) :
  handle (click "delete-all-btn" st) db = Ok (sql_delete_all db, Some []).
Proof. reflexivity. Qed.

Lemma saves_cons (ev : event) (evs : list event) :
  saves (ev :: evs) = step_count ev + saves evs.
Proof.
  unfold saves, step_count. simpl. destruct (is_save ev); simpl; lia.
Qed.

Lemma saves_nonneg (evs : list event) : 0 <= saves evs.
Proof. unfold saves. lia. Qed.

(** One firing: it succeeds unless it is a save on a used-up sequence,
    keeps the database well formed and advances the sequence by one on a
    save and not at all otherwise. *)
Lemma handle_step (ev : event) (db : database) :
  wf db -> sqlite_sequence db + step_count ev <= max_rowid ->
  exists db' out, handle ev db = Ok (db', out)
    /\ wf db'
    /\ sqlite_sequence db' = sqlite_sequence db + step_count ev.
Proof.
  intros Hwf Hroom. unfold step_count, is_save in *.
  unfold handle_past_data.
  destruct (triggered ev) as [b|];
    [|exists db, None; split; [reflexivity|split; [exact Hwf|lia]]].
  destruct (String.eqb b "save-view-btn") eqn:Hb.
  - destruct (sql_insert_wf (values_of (inputs ev)) db Hwf ltac:(lia)) as [Hins Hwf'].
    rewrite Hins. simpl. eexists _, _. split; [reflexivity|].
    split; [exact Hwf'|reflexivity].
  - destruct (String.eqb b "delete-all-btn"); simpl; eexists _, _;
      (split; [reflexivity|]); (split; [|simpl; lia]).
    + apply wf_delete_all, Hwf.
    + exact Hwf.
Qed.

(** Any sequence of firings: the run succeeds while rowids remain, ends
    in a well-formed database whose sequence has advanced by the number of
    saves, and no state on the way holds a rowid above that sequence. *)
Lemma run_invariant (evs : list event) (db : database) :
  wf db -> sqlite_sequence db + saves evs <= max_rowid ->
  exists tr dbn, runs evs db = Ok tr
    /\ last tr = Some dbn
    /\ wf dbn
    /\ sqlite_sequence dbn = sqlite_sequence db + saves evs
    /\ Forall (fun d => Forall (fun i => i <= sqlite_sequence dbn) (ids d)) tr.
Proof.
  revert db. induction evs as [|ev evs IH]; intros db Hwf Hroom.
  - exists [db], db. simpl. split; [reflexivity|]. split; [reflexivity|].
    split; [exact Hwf|]. split; [unfold saves; simpl; lia|].
    constructor; [|constructor].
    destruct Hwf as (_ & Hb & _). eapply Forall_impl; [exact Hb|].
    simpl. intros; lia.
  - rewrite saves_cons in Hroom. pose proof (saves_nonneg evs) as Hs.
    destruct (handle_step ev db Hwf ltac:(lia)) as (db' & out & Hh & Hwf' & Hseq).
    destruct (IH db' Hwf' ltac:(lia)) as (tr & dbn & Hrun & Hlast & Hwfn & Hseqn & Hall).
    exists (db :: tr), dbn. simpl. rewrite Hh. simpl. rewrite Hrun. simpl.
    split; [reflexivity|]. split; [rewrite last_cons, Hlast; reflexivity|].
    split; [exact Hwfn|]. split; [rewrite saves_cons; lia|].
    constructor; [|exact Hall].
    destruct Hwf as (_ & Hb & _). eapply Forall_impl; [exact Hb|].
    simpl. unfold step_count in *. destruct (is_save ev); intros; lia.
Qed.
(** C6: after any sequence of saves, views and clears on a new database
    (with rowids remaining), a save succeeds, appends its record to what
    listing returned before, gives it the identifier one above the number
    of saves made so far - so the first save gets 1 and no identifier comes
    back after a clear - which is strictly greater than every identifier
    held by any earlier state, and the listing is in strictly ascending
    identifier order. *)
Theorem save_identifier_monotone (evs : list event) (st : view_state) :
  saves evs < max_rowid ->
  exists tr db db' r,
    runs evs fresh_database = Ok tr
    /\ last tr = Some db
    /\ handle (click "save-view-btn" st) db = Ok (db', Some (sql_select_all db'))
    /\ sql_select_all db' = (sql_select_all db ++ [r])%list
    /\ columns r = values_of st
    /\ id r = saves evs + 1
    /\ (forall d r0, In d tr -> In r0 (sql_select_all d) -> id r0 < id r)
    /\ StronglySorted Z.lt (id <$> sql_select_all db').
Proof.
  intros Hroom.
  destruct (run_invariant evs fresh_database wf_fresh ltac:(simpl; lia))
    as (tr & db & Hrun & Hlast & Hwf & Hseq & Hall).
  simpl in Hseq.
  destruct (handle_save st db Hwf ltac:(lia)) as [Hsave Hwf'].
  eexists tr, db, _, _.
  split; [exact Hrun|]. split; [exact Hlast|]. split; [exact Hsave|].
  split; [reflexivity|]. split; [reflexivity|]. split; [simpl; lia|].
  split; [|apply Hwf'].
  intros d r0 Hd Hr0. simpl.
  rewrite Forall_forall in Hall.
  specialize (Hall d ltac:(apply list_elem_of_In; exact Hd)).
  rewrite Forall_forall in Hall.
  specialize (Hall (id r0)
    ltac:(apply list_elem_of_fmap; exists r0; split;
          [reflexivity|apply list_elem_of_In; exact Hr0])).
  lia.
Qed.

(** C7: in every state reached from a new database, "Delete All" leaves
    an empty table, so the listing that follows is empty; the next save
    then succeeds and continues the identifier sequence where it was: its
    record gets the identifier one above the number of saves made before
    the clear, above every identifier any earlier state held. *)
Theorem clear_all_postcondition (evs : list event) (st st' : view_state) :
  saves evs < max_rowid ->
  exists tr db db2 r,
    runs evs fresh_database = Ok tr
    /\ last tr = Some db
    /\ sql_select_all (sql_delete_all db) = []
    /\ handle (click "delete-all-btn" st) db = Ok (sql_delete_all db, Some [])
    /\ handle (click "save-view-btn" st') (sql_delete_all db) = Ok (db2, Some [r])
    /\ id r = saves evs + 1
    /\ (forall d r0, In d tr -> In r0 (sql_select_all d) -> id r0 < id r).
Proof.
  intros Hroom.
  destruct (run_invariant evs fresh_database wf_fresh ltac:(simpl; lia))
    as (tr & db & Hrun & Hlast & Hwf & Hseq & Hall).
  simpl in Hseq.
  destruct (handle_save st' (sql_delete_all db) (wf_delete_all db Hwf)
              ltac:(simpl; lia)) as [Hsave _].
  eexists tr, db, _, _.
  split; [exact Hrun|]. split; [exact Hlast|]. split; [reflexivity|].
  split; [apply handle_delete_all|]. split; [exact Hsave|].
  split; [simpl; lia|].
  intros d r0 Hd Hr0. simpl.
  rewrite Forall_forall in Hall.
  specialize (Hall d ltac:(apply list_elem_of_In; exact Hd)).
  rewrite Forall_forall in Hall.
  specialize (Hall (id r0)
    ltac:(apply list_elem_of_fmap; exists r0; split;
          [reflexivity|apply list_elem_of_In; exact Hr0])).
  lia.
Qed.
End StoreProps.

(** ** The examples, evaluated *)

Example sample_normalize :
  normalize Sample.to_datetime Sample.to_timedelta_seconds Sample.sheet
  = Ok [Sample.rec1; Sample.rec2; Sample.rec_missing_rating].
Proof. reflexivity. Qed.

Example sample_filter_all :
  filtered_df Sample.records Sample.criteria = [Sample.rec1; Sample.rec2].
Proof. reflexivity. Qed.

Example sample_filter_short :
  filtered_df Sample.records Sample.criteria_short = [Sample.rec1].
Proof. reflexivity. Qed.

Example sample_distribution :
  SentimentDistribution (filtered_df Sample.records Sample.criteria)
  = {[ "Positive" := 1%nat; "Negative" := 1%nat ]}.
Proof. apply map_eq. intros k. vm_compute. reflexivity. Qed.

Example sample_churn :
  ChurnIndicator (filtered_df Sample.records Sample.criteria)
  = {[ Text "N" := 1%nat ]}.
Proof. vm_compute. reflexivity. Qed.

Example sample_duration_box :
  DurationBySentiment (filtered_df Sample.records Sample.criteria_short)
  = {[ "Positive" := [120 # 1] ]}.
Proof. vm_compute. reflexivity. Qed.

Example sample_trend :
  SentimentTrend Sample.strftime_Ym (filtered_df Sample.records Sample.criteria)
    !! "2024-01"
  = Some {[ "Positive" := 1%nat; "Negative" := 1%nat ]}.
Proof. vm_compute. reflexivity. Qed.

(** Save, save, clear, view, save: the identifiers in the table after each
    firing. *)
Example sample_history :
  match Store.run Sample.str_sentiment Sample.str_range
          (Sample.clicks ++ [Store.click "save-view-btn" Sample.state])
          Store.fresh_database with
  | Ok tr => map Store.ids tr
  | Raise _ => []
  end = [ []; [1]; [1; 2]; []; []; [3] ].
Proof. reflexivity. Qed.

(** A rating of 3.5 goes to the last branch; a rating cell that holds a
    date stops the load. *)
Example sample_rating_between :
  classify_sentiment (Some (Num (Q2Qc (7 # 2)))) = Ok "Negative".
Proof. vm_compute. reflexivity. Qed.

Example sample_rating_date :
  normalize Sample.to_datetime Sample.to_timedelta_seconds
    [ Sample.row (Some (Temporal DateTime 1704844800000000000))
        (Sample.txt "2024-01-10") (Sample.txt "Y") (Sample.txt "00:02:00") ]
  = Raise TypeError.
Proof. reflexivity. Qed.

(** ** Instances on the example data *)



Lemma missing_rating_total_sample :
  raw_rating Sample.row_missing_rating = NaN
  /\ classify_sentiment (raw_rating Sample.row_missing_rating) = Ok "Negative"
  /\ (exists p,
        parse_row Sample.to_datetime Sample.to_timedelta_seconds
          Sample.row_missing_rating = Ok p
        /\ p_Sentiment p = Some "Negative"
        /\ (is_Some (dropna_row p)
            <-> present Sample.to_datetime Sample.to_timedelta_seconds
                  Sample.row_missing_rating))
  /\ (forall r' p',
        parse_row Sample.to_datetime Sample.to_timedelta_seconds r' = Ok p' ->
        is_Some (p_Sentiment p')).
Proof.
  split; [reflexivity|].
  apply (missing_rating_total Sample.to_datetime Sample.to_timedelta_seconds
           Sample.row_missing_rating).
  reflexivity.
Defined.

Lemma empty_sentiments_no_filter_sample :
  (selected_sentiments Sample.criteria = None
   \/ selected_sentiments Sample.criteria = Some [])
  /\ filtered_df Sample.records Sample.criteria
     = filtered_df_without_sentiment Sample.records Sample.criteria
  /\ length (filtered_df Sample.records Sample.criteria)
     = length (filtered_df_without_sentiment Sample.records Sample.criteria).
Proof.
  split; [right; reflexivity|].
  apply (empty_sentiments_no_filter Sample.records Sample.criteria).
  right. reflexivity.
Defined.

Lemma inverted_range_empty_sample :
  (end_date Sample.criteria_inverted < start_date Sample.criteria_inverted
   \/ (snd (duration_range Sample.criteria_inverted)
       < fst (duration_range Sample.criteria_inverted))%Q)
  /\ filtered_df Sample.records Sample.criteria_inverted = [].
Proof.
  split; [left; reflexivity|].
  apply (inverted_range_empty Sample.records Sample.criteria_inverted).
  left. reflexivity.
Defined.

Lemma save_identifier_monotone_sample :
  Store.saves Sample.clicks < Store.max_rowid
  /\ exists tr db db' r,
       Store.run Sample.str_sentiment Sample.str_range Sample.clicks
         Store.fresh_database = Ok tr
       /\ last tr = Some db
       /\ Store.handle_past_data Sample.str_sentiment Sample.str_range
            (Store.click "save-view-btn" Sample.state) db
          = Ok (db', Some (Store.sql_select_all db'))
       /\ Store.sql_select_all db' = (Store.sql_select_all db ++ [r])%list
       /\ Store.columns r
          = Store.insert_values Sample.str_sentiment Sample.str_range Sample.state
       /\ Store.id r = Store.saves Sample.clicks + 1
       /\ (forall d r0, In d tr -> In r0 (Store.sql_select_all d) ->
             Store.id r0 < Store.id r)
       /\ StronglySorted Z.lt (Store.id <$> Store.sql_select_all db').
Proof.
  split; [reflexivity|].
  apply (save_identifier_monotone Sample.str_sentiment Sample.str_range
           Sample.clicks Sample.state).
  reflexivity.
Defined.

Lemma clear_all_postcondition_sample :
  Store.saves Sample.clicks < Store.max_rowid
  /\ exists tr db db2 r,
       Store.run Sample.str_sentiment Sample.str_range Sample.clicks
         Store.fresh_database = Ok tr
       /\ last tr = Some db
       /\ Store.sql_select_all (Store.sql_delete_all db) = []
       /\ Store.handle_past_data Sample.str_sentiment Sample.str_range
            (Store.click "delete-all-btn" Sample.state) db
          = Ok (Store.sql_delete_all db, Some [])
       /\ Store.handle_past_data Sample.str_sentiment Sample.str_range
            (Store.click "save-view-btn" Sample.state) (Store.sql_delete_all db)
          = Ok (db2, Some [r])
       /\ Store.id r = Store.saves Sample.clicks + 1
       /\ (forall d r0, In d tr -> In r0 (Store.sql_select_all d) ->
             Store.id r0 < Store.id r).
Proof.
  split; [reflexivity|].
  apply (clear_all_postcondition Sample.str_sentiment Sample.str_range
           Sample.clicks Sample.state Sample.state).
  reflexivity.
Defined.

(** * Further properties *)

(** ** Lists, minima and maxima *)

Lemma filter_all_true {A} (f : A -> bool) (l : list A) :
  (forall x, In x l -> f x = true) -> List.filter f l = l.
Proof.
  induction l as [|a l IH]; intros Hall; simpl; [reflexivity|].
  rewrite (Hall a) by (left; reflexivity).
  f_equal. apply IH. intros x Hx. apply Hall. right. exact Hx.
Qed.

Lemma filter_filter_and {A} (f g : A -> bool) (l : list A) :
  List.filter f (List.filter g l) = List.filter (fun x => g x && f x) l.
Proof.
  induction l as [|a l IH]; simpl; [reflexivity|].
  destruct (g a); simpl; [destruct (f a)|]; rewrite IH; reflexivity.
Qed.

Lemma filter_guard {A} (b : bool) (f : A -> bool) (l : list A) :
  (if b then List.filter f l else l) = List.filter (fun x => negb b || f x) l.
Proof.
  destruct b; simpl; [reflexivity|].
  symmetry. apply filter_all_true. reflexivity.
Qed.

Lemma filter_ext_in {A} (f g : A -> bool) (l : list A) :
  (forall x, In x l -> f x = g x) -> List.filter f l = List.filter g l.
Proof.
  induction l as [|a l IH]; intros Hfg; simpl; [reflexivity|].
  rewrite (Hfg a) by (left; reflexivity).
  rewrite IH by (intros x Hx; apply Hfg; right; exact Hx). reflexivity.
Qed.

Lemma filter_is_sublist {A} (f : A -> bool) (l : list A) :
  sublist (List.filter f l) l.
Proof.
  induction l as [|a l IH]; simpl; [constructor|].
  destruct (f a); [apply sublist_skip|apply sublist_cons]; exact IH.
Qed.

Lemma Qmin_cases (a b : Q) : Qmin a b = a \/ Qmin a b = b.
Proof. unfold Qmin, GenericMinMax.gmin. destruct (a ?= b)%Q; auto. Qed.

Lemma Qmax_cases (a b : Q) : Qmax a b = a \/ Qmax a b = b.
Proof. unfold Qmax, GenericMinMax.gmax. destruct (a ?= b)%Q; auto. Qed.

(** The minimum of a series is one of its values and is below all. *)
Lemma min_Q_spec (l : list Q) (m : Q) :
  min_Q l = Some m -> In m l /\ forall x, In x l -> (m <= x)%Q.
Proof.
  destruct l as [|x0 tl]; [discriminate|]. simpl. intros [= <-].
  induction tl as [|y tl [IHin IHle]]; simpl.
  - split; [left; reflexivity|]. intros x [->|[]]. apply Qle_refl.
  - split.
    + destruct (Qmin_cases y (foldr Qmin x0 tl)) as [-> | ->].
      * right. left. reflexivity.
      * destruct IHin as [Hx|Hx]; [left; exact Hx|right; right; exact Hx].
    + intros x [<-|[<-|Hx]].
      * eapply Qle_trans; [apply Q.le_min_r|]. apply IHle. left. reflexivity.
      * apply Q.le_min_l.
      * eapply Qle_trans; [apply Q.le_min_r|]. apply IHle. right. exact Hx.
Qed.

Lemma max_Q_spec (l : list Q) (m : Q) :
  max_Q l = Some m -> In m l /\ forall x, In x l -> (x <= m)%Q.
Proof.
  destruct l as [|x0 tl]; [discriminate|]. simpl. intros [= <-].
  induction tl as [|y tl [IHin IHle]]; simpl.
  - split; [left; reflexivity|]. intros x [->|[]]. apply Qle_refl.
  - split.
    + destruct (Qmax_cases y (foldr Qmax x0 tl)) as [-> | ->].
      * right. left. reflexivity.
      * destruct IHin as [Hx|Hx]; [left; exact Hx|right; right; exact Hx].
    + intros x [<-|[<-|Hx]].
      * eapply Qle_trans; [|apply Q.le_max_r]. apply IHle. left. reflexivity.
      * apply Q.le_max_l.
      * eapply Qle_trans; [|apply Q.le_max_r]. apply IHle. right. exact Hx.
Qed.

Lemma min_Z_spec (l : list Z) (m : Z) :
  min_Z l = Some m -> In m l /\ forall x, In x l -> m <= x.
Proof.
  destruct l as [|x0 tl]; [discriminate|]. simpl. intros [= <-].
  induction tl as [|y tl [IHin IHle]]; simpl.
  - split; [left; reflexivity|]. intros x [->|[]]. lia.
  - split.
    + destruct (Z.min_spec y (foldr Z.min x0 tl)) as [[_ ->]|[_ ->]].
      * right. left. reflexivity.
      * destruct IHin as [Hx|Hx]; [left; exact Hx|right; right; exact Hx].
    + intros x [<-|[<-|Hx]].
      * specialize (IHle x0 ltac:(left; reflexivity)). lia.
      * lia.
      * specialize (IHle x ltac:(right; exact Hx)). lia.
Qed.

Lemma max_Z_spec (l : list Z) (m : Z) :
  max_Z l = Some m -> In m l /\ forall x, In x l -> x <= m.
Proof.
  destruct l as [|x0 tl]; [discriminate|]. simpl. intros [= <-].
  induction tl as [|y tl [IHin IHle]]; simpl.
  - split; [left; reflexivity|]. intros x [->|[]]. lia.
  - split.
    + destruct (Z.max_spec y (foldr Z.max x0 tl)) as [[_ ->]|[_ ->]].
      * destruct IHin as [Hx|Hx]; [left; exact Hx|right; right; exact Hx].
      * right. left. reflexivity.
    + intros x [<-|[<-|Hx]].
      * specialize (IHle x0 ltac:(left; reflexivity)). lia.
      * lia.
      * specialize (IHle x ltac:(right; exact Hx)). lia.
Qed.

Lemma unique_In (l : list string) (s : string) : In s (unique l) <-> In s l.
Proof.
  induction l as [|x l IH]; simpl; [reflexivity|].
  rewrite filter_In, IH, negb_true_iff, String.eqb_neq.
  destruct (decide (x = s)) as [->|Hne]; [tauto|].
  split; [tauto|]. intros [Hx|Hs]; [contradiction|].
  right. split; [exact Hs|]. congruence.
Qed.

Lemma unique_NoDup (l : list string) : List.NoDup (unique l).
Proof.
  induction l as [|x l IH]; simpl; constructor.
  - rewrite filter_In, negb_true_iff, String.eqb_neq. tauto.
  - clear -IH. induction (unique l) as [|y u IHu]; simpl; [constructor|].
    inversion IH as [|? ? Hy Hu]; subst.
    destruct (negb (y =? x)%string); [|apply IHu; exact Hu].
    constructor; [|apply IHu; exact Hu].
    rewrite filter_In. tauto.
Qed.

(** ** Loading and start-up *)

Lemma classify_sentiment_label (rating : cell) (s : string) :
  classify_sentiment rating = Ok s -> In s sentiment_labels.
Proof.
  destruct rating as [[q|t|k ns]|].
  - rewrite classify_sentiment_num. intros [= <-]. unfold sentiment_labels.
    destruct (bool_decide _); [simpl; tauto|].
    destruct (bool_decide _); simpl; tauto.
  - rewrite classify_sentiment_text. discriminate.
  - rewrite classify_sentiment_temporal. discriminate.
  - change (classify_sentiment NaN = Ok s -> In s sentiment_labels).
    rewrite classify_sentiment_nan. intros [= <-]. simpl. tauto.
Qed.

Lemma not_comparable_iff (rating : cell) :
  ~ comparable rating <-> exists v, rating = Some v /\ forall q, v <> Num q.
Proof.
  destruct rating as [[q|t|k ns]|]; simpl.
  - split; [intros Hc; destruct Hc; exact I|].
    intros (v & [= <-] & Hv) _. exact (Hv q eq_refl).
  - split; [|tauto]. intros _. exists (Text t). split; [reflexivity|discriminate].
  - split; [|tauto]. intros _. exists (Temporal k ns).
    split; [reflexivity|discriminate].
  - split; [intros Hc; destruct Hc; exact I|]. intros (v & [=] & _).
Qed.

Lemma comparable_or_not (sheet : list raw_row) :
  Forall (fun r => comparable (raw_rating r)) sheet
  \/ exists r, In r sheet /\ ~ comparable (raw_rating r).
Proof.
  induction sheet as [|r sheet [IH|(r' & Hin & Ht)]].
  - left. constructor.
  - destruct (raw_rating r) as [[q|t|k ns]|] eqn:Hr.
    + left. constructor; [rewrite Hr; exact I|exact IH].
    + right. exists r. split; [left; reflexivity|]. rewrite Hr. simpl. tauto.
    + right. exists r. split; [left; reflexivity|]. rewrite Hr. simpl. tauto.
    + left. constructor; [rewrite Hr; exact I|exact IH].
  - right. exists r'. split; [right; exact Hin|exact Ht].
Qed.

Section StartupProps.
Variable to_datetime : cell -> option Z.
Variable to_timedelta_seconds : cell -> option Q.

Local Abbreviation load := (normalize to_datetime to_timedelta_seconds).
Local Abbreviation kept := (present to_datetime to_timedelta_seconds).
Local Abbreviation is_record_of := (record_of to_datetime to_timedelta_seconds).
Local Abbreviation start := (startup to_datetime to_timedelta_seconds).

Lemma normalize_Ok (sheet : list raw_row) :
  Forall (fun r => comparable (raw_rating r)) sheet ->
  exists df, load sheet = Ok df /\ Forall2 is_record_of (filter kept sheet) df.
Proof.
  intros Hc.
  destruct (series_parse_rows to_datetime to_timedelta_seconds sheet Hc)
    as (ps & Hps & Hrel).
  exists (dropna ps). split; [|exact Hrel].
  unfold normalize. rewrite Hps. reflexivity.
Qed.

Lemma normalize_Ok_inv (sheet : list raw_row) (df : list CallRecord) :
  load sheet = Ok df ->
  Forall (fun r => comparable (raw_rating r)) sheet
  /\ Forall2 is_record_of (filter kept sheet) df.
Proof.
  intros Hload.
  destruct (comparable_or_not sheet) as [Hc|(r & Hin & Ht)].
  - split; [exact Hc|].
    destruct (normalize_Ok sheet Hc) as (df' & Hload' & Hrel).
    rewrite Hload in Hload'. injection Hload' as <-. exact Hrel.
  - rewrite (normalize_malformed_rating _ _ sheet r Hin Ht) in Hload.
    discriminate.
Qed.

(** The load raises exactly when some rating cell holds something that is
    not a number - a string, a date or a time - and what it raises is then
    the [TypeError] of the comparison on line 20; numbers and missing
    ratings never make it raise. *)
Theorem normalize_raises_iff (sheet : list raw_row) :
  ((exists e, load sheet = Raise e)
   <-> exists r v, In r sheet /\ raw_rating r = Some v /\ forall q, v <> Num q)
  /\ (forall e, load sheet = Raise e -> e = TypeError).
Proof.
  assert (Hraise : forall e, load sheet = Raise e ->
            load sheet = Raise TypeError
            /\ exists r, In r sheet /\ ~ comparable (raw_rating r)).
  { intros e He.
    destruct (comparable_or_not sheet) as [Hc|(r & Hin & Ht)].
    - destruct (normalize_Ok sheet Hc) as (df & Hdf & _). congruence.
    - split; [|eauto].
      apply (normalize_malformed_rating _ _ sheet r Hin Ht). }
  split; [split|].
  - intros [e He]. destruct (Hraise e He) as (_ & r & Hin & Hr).
    apply not_comparable_iff in Hr as (v & Hv & Hq). eauto.
  - intros (r & v & Hin & Hv & Hq). exists TypeError.
    apply (normalize_malformed_rating _ _ sheet r Hin).
    apply not_comparable_iff. eauto.
  - intros e He. destruct (Hraise e He) as [Ht _]. congruence.
Qed.

Lemma normalize_labels (sheet : list raw_row) (df : list CallRecord) :
  load sheet = Ok df ->
  Forall (fun rec => In (Sentiment rec) sentiment_labels
                     /\ classify_sentiment (rating rec) = Ok (Sentiment rec)) df.
Proof.
  intros Hload. destruct (normalize_Ok_inv sheet df Hload) as [_ Hrel].
  clear Hload. induction Hrel as [|r rec l df' Hrec _ IH]; constructor; [|exact IH].
  destruct Hrec as (_ & _ & _ & _ & Hs).
  split; [eapply classify_sentiment_label|]; exact Hs.
Qed.

(** Every record of a loaded frame carries one of the three labels, the
    one its own rating classifies to, and the frame has no more rows than
    the sheet. *)
Theorem normalized_sentiments (sheet : list raw_row) (df : list CallRecord) :
  load sheet = Ok df ->
  Forall (fun rec => In (Sentiment rec) sentiment_labels
                     /\ classify_sentiment (rating rec) = Ok (Sentiment rec)) df
  /\ (length df <= length sheet)%nat.
Proof.
  intros Hload. split; [exact (normalize_labels sheet df Hload)|].
  destruct (normalize_Ok_inv sheet df Hload) as [_ Hrel].
  rewrite <- (Forall2_length _ _ _ Hrel). apply length_filter.
Qed.

Lemma layout_inl (df : list CallRecord) (e : startup_exn) :
  layout df = inl e <-> e = NaNToInt /\ df = [].
Proof.
  destruct df as [|r df]; simpl.
  - split; [intros [= <-]; auto|intros [-> _]; reflexivity].
  - split; [discriminate|intros [_ [=]]].
Qed.

Lemma layout_inr (df : list CallRecord) (d : dashboard) :
  layout df = inr d ->
  dataset d = df /\ df <> []
  /\ sentiment_options d = unique (Sentiment <$> df)
  /\ selected_sentiments (initial_criteria d) = None
  /\ resolved_status (initial_criteria d) = None
  /\ min_Z (Date <$> df) = Some (start_date (initial_criteria d))
  /\ max_Z (Date <$> df) = Some (end_date (initial_criteria d))
  /\ min_Q (AvgTalkDuration <$> df) = Some (fst (duration_range (initial_criteria d)))
  /\ max_Q (AvgTalkDuration <$> df) = Some (snd (duration_range (initial_criteria d))).
Proof.
  destruct df as [|r df]; [discriminate|].
  unfold layout.
  destruct (min_Z _) as [d0|] eqn:H0; [|discriminate].
  destruct (max_Z _) as [d1|] eqn:H1; [|discriminate].
  destruct (min_Q _) as [lo|] eqn:H2; [|discriminate].
  destruct (max_Q _) as [hi|] eqn:H3; [|discriminate].
  intros [= <-]. simpl. repeat split. discriminate.
Qed.

Lemma startup_inr (fr : sheet_frame) (d : dashboard) :
  start fr = inr d ->
  missing_columns fr = ∅
  /\ load (as_raw_row <$> sheet_rows fr) = Ok (dataset d)
  /\ layout (dataset d) = inr d.
Proof.
  unfold startup. destruct (decide (missing_columns fr = ∅)) as [Hm|Hm]; [|discriminate].
  destruct (load _) as [df|e]; [|discriminate].
  intros Hl. destruct (layout_inr df d Hl) as [<- _]. auto.
Qed.

Lemma missing_columns_spec (fr : sheet_frame) (c : string) :
  c ∈ missing_columns fr <-> c ∈ required_columns /\ ~ In c (sheet_columns fr).
Proof.
  unfold missing_columns.
  rewrite elem_of_difference, elem_of_list_to_set, list_elem_of_In. reflexivity.
Qed.

(** The program stops with the [ValueError] of line 16 exactly when a
    required column is absent from the sheet, whatever the rows hold; the
    error names the absent required columns, all of them and no other.
    Other columns, and the order of the columns, play no part. *)
Theorem startup_missing_columns (fr : sheet_frame) (m : gset string) :
  start fr = inl (MissingColumns m)
  <-> (exists c, c ∈ required_columns /\ ~ In c (sheet_columns fr))
      /\ (forall c, c ∈ m <-> c ∈ required_columns /\ ~ In c (sheet_columns fr)).
Proof.
  unfold startup. destruct (decide (missing_columns fr = ∅)) as [Hm|Hm].
  - split.
    + destruct (load _) as [df|e]; [|discriminate].
      intros Hl. apply layout_inl in Hl as [[=] _].
    + intros [(c & Hc) _]. apply missing_columns_spec in Hc.
      rewrite Hm in Hc. set_solver.
  - split.
    + intros [= <-]. split; [|apply missing_columns_spec].
      apply set_choose_L in Hm as [c Hc]. exists c.
      apply missing_columns_spec. exact Hc.
    + intros [_ Hspec]. do 2 f_equal. apply set_eq. intros c.
      rewrite Hspec. apply missing_columns_spec.
Qed.

(** With the four columns there, the program stops on line 105 ([int] of
    a NaN bound) exactly when the load drops every row of the sheet. *)
Theorem startup_no_usable_row (fr : sheet_frame) :
  start fr = inl NaNToInt
  <-> (forall c, c ∈ required_columns -> In c (sheet_columns fr))
      /\ load (as_raw_row <$> sheet_rows fr) = Ok [].
Proof.
  unfold startup. destruct (decide (missing_columns fr = ∅)) as [Hm|Hm].
  - assert (Hall : forall c, c ∈ required_columns -> In c (sheet_columns fr)).
    { intros c Hc. destruct (decide (c ∈ sheet_columns fr)) as [Hin|Hout].
      - apply list_elem_of_In. exact Hin.
      - assert (c ∈ missing_columns fr) as Hmc
          by (apply missing_columns_spec; split;
              [exact Hc|rewrite <- list_elem_of_In; exact Hout]).
        rewrite Hm in Hmc. set_solver. }
    destruct (load _) as [df|e].
    + rewrite layout_inl. split.
      * intros [_ ->]. auto.
      * intros [_ [= ->]]. auto.
    + split; [discriminate|intros [_ [=]]].
  - split; [discriminate|]. intros [Hall _]. exfalso. apply Hm.
    apply set_eq. intros c. rewrite missing_columns_spec. split; [|set_solver].
    intros [Hc Hout]. exfalso. apply Hout, Hall, Hc.
Qed.

(** When the program starts, the initial values of the five inputs select
    the whole frame: the first firing of [update_graphs] charts every
    record the load kept, and there is at least one. *)
Theorem startup_initial_view (fr : sheet_frame) (d : dashboard) :
  start fr = inr d ->
  load (as_raw_row <$> sheet_rows fr) = Ok (dataset d)
  /\ dataset d <> []
  /\ filtered_df (dataset d) (initial_criteria d) = dataset d.
Proof.
  intros Hs. destruct (startup_inr fr d Hs) as (_ & Hload & Hl).
  destruct (layout_inr _ _ Hl)
    as (_ & Hne & _ & Hsel & Hres & Hd0 & Hd1 & Hlo & Hhi).
  split; [exact Hload|]. split; [exact Hne|].
  unfold filtered_df. rewrite Hsel, Hres. simpl.
  rewrite (filter_all_true (date_mask _)).
  - apply filter_all_true. intros r Hr. apply duration_mask_spec.
    assert (In (AvgTalkDuration r) (AvgTalkDuration <$> dataset d)) as Hin
      by (apply in_map; exact Hr).
    split; [apply (min_Q_spec _ _ Hlo)|apply (max_Q_spec _ _ Hhi)]; exact Hin.
  - intros r Hr. apply date_mask_spec.
    assert (In (Date r) (Date <$> dataset d)) as Hin by (apply in_map; exact Hr).
    split; [apply (min_Z_spec _ _ Hd0)|apply (max_Z_spec _ _ Hd1)]; exact Hin.
Qed.

(** The initial date range and the initial slider range are tight: each of
    the four bounds is the value of some record, and every record lies
    within both ranges. *)
Theorem startup_bounds_tight (fr : sheet_frame) (d : dashboard) :
  start fr = inr d ->
  let c := initial_criteria d in
  (forall r, In r (dataset d) ->
     start_date c <= Date r <= end_date c
     /\ (fst (duration_range c) <= AvgTalkDuration r)%Q
     /\ (AvgTalkDuration r <= snd (duration_range c))%Q)
  /\ (exists r, In r (dataset d) /\ Date r = start_date c)
  /\ (exists r, In r (dataset d) /\ Date r = end_date c)
  /\ (exists r, In r (dataset d) /\ AvgTalkDuration r = fst (duration_range c))
  /\ (exists r, In r (dataset d) /\ AvgTalkDuration r = snd (duration_range c)).
Proof.
  intros Hs c. destruct (startup_inr fr d Hs) as (_ & _ & Hl).
  destruct (layout_inr _ _ Hl) as (_ & _ & _ & _ & _ & Hd0 & Hd1 & Hlo & Hhi).
  fold c in Hd0, Hd1, Hlo, Hhi.
  destruct (min_Z_spec _ _ Hd0) as [Hi0 Hb0].
  destruct (max_Z_spec _ _ Hd1) as [Hi1 Hb1].
  destruct (min_Q_spec _ _ Hlo) as [Hi2 Hb2].
  destruct (max_Q_spec _ _ Hhi) as [Hi3 Hb3].
  split; [|repeat split].
  - intros r Hr.
    assert (In (Date r) (Date <$> dataset d)) by (apply in_map; exact Hr).
    assert (In (AvgTalkDuration r) (AvgTalkDuration <$> dataset d))
      by (apply in_map; exact Hr).
    auto.
  - apply in_map_iff in Hi0 as (r & Hr & Hin). eauto.
  - apply in_map_iff in Hi1 as (r & Hr & Hin). eauto.
  - apply in_map_iff in Hi2 as (r & Hr & Hin). eauto.
  - apply in_map_iff in Hi3 as (r & Hr & Hin). eauto.
Qed.

(** The sentiment dropdown offers each sentiment that occurs in the frame
    once, offers no other, and so at most the three labels. *)
Theorem startup_sentiment_options (fr : sheet_frame) (d : dashboard) :
  start fr = inr d ->
  List.NoDup (sentiment_options d)
  /\ (forall s, In s (sentiment_options d)
        <-> exists r, In r (dataset d) /\ Sentiment r = s)
  /\ (forall s, In s (sentiment_options d) -> In s sentiment_labels).
Proof.
  intros Hs. destruct (startup_inr fr d Hs) as (_ & Hload & Hl).
  destruct (layout_inr _ _ Hl) as (_ & _ & -> & _).
  assert (Hiff : forall s, In s (unique (Sentiment <$> dataset d))
            <-> exists r, In r (dataset d) /\ Sentiment r = s).
  { intros s. rewrite unique_In, <- list_elem_of_In, list_elem_of_fmap.
    split; intros (r & H1 & H2); exists r;
      [rewrite <- list_elem_of_In|rewrite list_elem_of_In]; auto. }
  split; [apply unique_NoDup|]. split; [exact Hiff|].
  intros s Hin. apply Hiff in Hin as (r & Hr & <-).
  pose proof (normalize_labels _ _ Hload) as Hall.
  rewrite List.Forall_forall in Hall. apply (Hall r Hr).
Qed.
End StartupProps.

(** ** The filter stage as a whole *)

Lemma filtered_df_mask (df : list CallRecord) (c : FilterCriteria) :
  filtered_df df c = List.filter (row_mask c) df.
Proof.
  unfold filtered_df. cbv zeta.
  rewrite (filter_guard (truthy_list _)), (filter_guard (truthy_str _)).
  rewrite !filter_filter_and.
  apply filter_ext_in. intros r _. unfold row_mask.
  rewrite !andb_assoc. reflexivity.
Qed.

Lemma filtered_df_without_sentiment_mask (df : list CallRecord) (c : FilterCriteria) :
  filtered_df_without_sentiment df c
  = List.filter (fun r => date_mask c r
       && (negb (truthy_str (resolved_status c)) || resolved_mask (resolved_status c) r)
       && duration_mask c r) df.
Proof.
  unfold filtered_df_without_sentiment. cbv zeta.
  rewrite (filter_guard (truthy_str _)), !filter_filter_and.
  apply filter_ext_in. intros r _. rewrite !andb_assoc. reflexivity.
Qed.

(** The four stages of lines 154-165 amount to one pass over the frame
    with the four clauses AND-ed, a guarded clause counting as true when
    its guard is off. *)
Theorem filtered_df_single_pass (df : list CallRecord) (c : FilterCriteria) :
  filtered_df df c = List.filter (row_mask c) df.
Proof. apply filtered_df_mask. Qed.

(** Filtering only removes rows: the subset keeps the order of the frame
    and repeats no row the frame does not repeat. *)
Theorem filtered_df_sublist (df : list CallRecord) (c : FilterCriteria) :
  sublist (filtered_df df c) df.
Proof. rewrite filtered_df_mask. apply filter_is_sublist. Qed.

(** Filtering a subset again by the criteria that produced it changes
    nothing, and the subset of a frame put together from two parts is the
    two subsets put together. *)
Theorem filtered_df_idempotent_app (df df' : list CallRecord) (c : FilterCriteria) :
  filtered_df (filtered_df df c) c = filtered_df df c
  /\ filtered_df (df ++ df') c = (filtered_df df c ++ filtered_df df' c)%list.
Proof.
  rewrite !filtered_df_mask. split.
  - apply filter_all_true. intros r Hr. apply filter_In in Hr. tauto.
  - apply List.filter_app.
Qed.

Section AllSentiments.
Variable to_datetime : cell -> option Z.
Variable to_timedelta_seconds : cell -> option Q.

(** On a loaded frame, selecting all three sentiments filters as selecting
    none does. *)
Theorem every_sentiment_no_filter
    (sheet : list raw_row) (df : list CallRecord)
    (c : FilterCriteria) (sel : list string) :
  normalize to_datetime to_timedelta_seconds sheet = Ok df ->
  selected_sentiments c = Some sel ->
  (forall s, In s sentiment_labels -> In s sel) ->
  filtered_df df c = filtered_df_without_sentiment df c.
Proof.
  intros Hload Hsel Hall.
  rewrite filtered_df_mask, filtered_df_without_sentiment_mask.
  apply filter_ext_in. intros r Hr. unfold row_mask.
  pose proof (normalize_labels _ _ _ _ Hload) as Hlab.
  rewrite List.Forall_forall in Hlab. destruct (Hlab r Hr) as [Hin _].
  assert (isin (selected_sentiments c) r = true) as ->
    by (rewrite Hsel; apply isin_spec, Hall, Hin).
  rewrite orb_true_r. reflexivity.
Qed.
End AllSentiments.

(** ** What the five charts receive *)

Lemma count_where_fmap {A B} (f : A -> B) (p : B -> bool) (l : list A) :
  count_where p (f <$> l) = count_where (fun a => p (f a)) l.
Proof.
  unfold count_where. induction l as [|a l IH]; simpl; [reflexivity|].
  destruct (p (f a)); simpl; [f_equal|]; exact IH.
Qed.

Lemma count_where_ext {A} (p q : A -> bool) (l : list A) :
  (forall a, p a = q a) -> count_where p l = count_where q l.
Proof.
  intros Hpq. unfold count_where. f_equal. apply filter_ext_in. auto.
Qed.

Lemma count_where_nil_iff {A} (p : A -> bool) (l : list A) :
  count_where p l = 0%nat <-> forall a, In a l -> p a = false.
Proof.
  unfold count_where. induction l as [|a l IH]; simpl.
  - split; [intros _ a []|reflexivity].
  - destruct (p a) eqn:Hp; simpl.
    + split; [discriminate|]. intros H.
      specialize (H a ltac:(left; reflexivity)). congruence.
    + rewrite IH. split.
      * intros H x [<-|Hx]; [exact Hp|apply H, Hx].
      * intros H x Hx. apply H. right. exact Hx.
Qed.

Lemma count_where_perm {A} (p : A -> bool) (l1 l2 : list A) :
  Permutation l1 l2 -> count_where p l1 = count_where p l2.
Proof.
  unfold count_where.
  induction 1 as [|x l l' _ IH|x y l|l l' l'' _ IH1 _ IH2]; simpl.
  - reflexivity.
  - destruct (p x); simpl; [f_equal|]; exact IH.
  - destruct (p x), (p y); reflexivity.
  - congruence.
Qed.

Lemma bool_decide_pair {A B} `{EqDecision A, EqDecision B} (a a' : A) (b b' : B) :
  bool_decide ((a, b) = (a', b')) = bool_decide (a = a') && bool_decide (b = b').
Proof.
  destruct (decide (a = a')) as [->|Ha], (decide (b = b')) as [->|Hb].
  - rewrite !bool_decide_eq_true_2 by reflexivity. reflexivity.
  - rewrite (bool_decide_eq_false_2 (b = b')) by exact Hb.
    rewrite andb_false_r. apply bool_decide_eq_false_2. congruence.
  - rewrite (bool_decide_eq_false_2 (a = a')) by exact Ha.
    apply bool_decide_eq_false_2. congruence.
  - rewrite (bool_decide_eq_false_2 (a = a')) by exact Ha.
    apply bool_decide_eq_false_2. congruence.
Qed.

Section GroupLookup.
Context `{Countable K}.

(** A group's entry: absent when no row has the key, the number of rows
    with the key otherwise. *)
Lemma group_size_lookup_count (keys : list K) (k : K) :
  group_size keys !! k
  = match count_where (fun x => bool_decide (x = k)) keys with
    | O => None
    | S n => Some (S n)
    end.
Proof.
  pose proof (group_size_lookup keys k) as Hc. fold (count_where
    (fun x => bool_decide (x = k)) keys) in Hc.
  destruct (group_size keys !! k) as [n|] eqn:Hk; simpl in Hc.
  - rewrite <- Hc. destruct n as [|n]; [|reflexivity].
    exfalso. symmetry in Hc.
    pose proof (proj1 (count_where_nil_iff _ _) Hc) as Hnone. clear Hc.
    rename Hnone into Hc.
    assert (In k keys) as Hin.
    { destruct (in_dec (fun x y => decide (x = y)) k keys) as [Hin|Hout]; [exact Hin|].
      apply group_size_lookup_None in Hout. congruence. }
    specialize (Hc k Hin). cbv beta in Hc.
    rewrite bool_decide_eq_true_2 in Hc by reflexivity.
    discriminate.
  - rewrite <- Hc. reflexivity.
Qed.

Lemma group_size_ext (keys1 keys2 : list K) :
  (forall k, count_where (fun x => bool_decide (x = k)) keys1
             = count_where (fun x => bool_decide (x = k)) keys2) ->
  group_size keys1 = group_size keys2.
Proof.
  intros Hc. apply map_eq. intros k.
  rewrite !group_size_lookup_count, Hc. reflexivity.
Qed.

(** The rows of a group: absent when no row has the key, the values of
    the rows with the key, in row order, otherwise. *)
Lemma group_values_lookup {V} (rows : list (K * V)) (k : K) :
  group_values rows !! k
  = match snd <$> List.filter (fun kv => bool_decide (kv.1 = k)) rows with
    | [] => None
    | l => Some l
    end.
Proof.
  induction rows as [|[x v] rows IH]; simpl; [apply lookup_empty|].
  destruct (decide (x = k)) as [->|Hne].
  - rewrite lookup_insert_eq, bool_decide_eq_true_2 by reflexivity.
    simpl. rewrite IH.
    destruct (List.filter _ rows); reflexivity.
  - rewrite lookup_insert_ne, bool_decide_eq_false_2 by exact Hne.
    exact IH.
Qed.
End GroupLookup.

Lemma set_to_map_lookup_fn `{Countable K} {A} (g : K -> A) (X : gset K) (i : K) :
  (set_to_map (fun i => (i, g i)) X : gmap K A) !! i
  = if decide (i ∈ X) then Some (g i) else None.
Proof.
  assert (Hinj : forall y y' : K, y ∈ X -> y' ∈ X ->
            ((fun i => (i, g i)) y).1 = ((fun i => (i, g i)) y').1 -> y = y')
    by (intros y y' _ _ Hy; exact Hy).
  destruct (decide (i ∈ X)) as [Hin|Hout].
  - apply (lookup_set_to_map _ _ _ _ Hinj). exists i. auto.
  - destruct (set_to_map _ X !! i) as [x|] eqn:Hx; [|reflexivity].
    apply (lookup_set_to_map _ _ _ _ Hinj) in Hx as (y & Hy & [= -> _]).
    contradiction.
Qed.

Lemma count_where_pos_iff {A} (p : A -> bool) (l : list A) :
  count_where p l <> 0%nat <-> exists a, In a l /\ p a = true.
Proof.
  unfold count_where. induction l as [|a l IH]; simpl.
  - split; [congruence|intros (a & [] & _)].
  - destruct (p a) eqn:Hp; simpl.
    + split; [|discriminate]. intros _. exists a. auto.
    + rewrite IH. split.
      * intros (x & Hx & Hpx). exists x. auto.
      * intros (x & [<-|Hx] & Hpx); [congruence|]. exists x. auto.
Qed.

Lemma eqb_bool_decide (a b : string) : String.eqb a b = bool_decide (a = b).
Proof.
  destruct (String.eqb_spec a b) as [->|Hne].
  - rewrite bool_decide_eq_true_2 by reflexivity. reflexivity.
  - rewrite bool_decide_eq_false_2 by exact Hne. reflexivity.
Qed.

Lemma group_size_dom `{Countable K} (keys : list K) (k : K) :
  k ∈ dom (group_size keys)
  <-> count_where (fun x => bool_decide (x = k)) keys <> 0%nat.
Proof.
  rewrite elem_of_dom, group_size_lookup_count.
  destruct (count_where _ keys).
  - split; [intros [x Hx]; discriminate|congruence].
  - split; [discriminate|eauto].
Qed.

Lemma snd_filter_pairs {A K V} `{EqDecision K} (f : A -> K) (g : A -> V)
    (l : list A) (k : K) :
  snd <$> List.filter (fun kv => bool_decide (kv.1 = k)) ((fun a => (f a, g a)) <$> l)
  = g <$> List.filter (fun a => bool_decide (f a = k)) l.
Proof.
  induction l as [|a l IH]; simpl; [reflexivity|].
  destruct (bool_decide (f a = k)); simpl; [f_equal|]; exact IH.
Qed.

Lemma churn_count (fdf : list CallRecord) (v : value) :
  count_where (fun x => bool_decide (x = v)) (Resolved <$> List.filter is_negative fdf)
  = count_where (fun r => bool_decide (Resolved r = v)
                          && bool_decide (Sentiment r = "Negative")) fdf.
Proof.
  unfold count_where. rewrite filter_map_length. f_equal.
  apply filter_ext_in. intros r _. unfold is_negative.
  rewrite eqb_bool_decide. apply andb_comm.
Qed.

Lemma pair_count (fdf : list CallRecord) (v : value) (s : string) :
  count_where (fun x => bool_decide (x = (v, s)))
    ((fun r => (Resolved r, Sentiment r)) <$> fdf)
  = count_where (fun r => bool_decide (Resolved r = v)
                          && bool_decide (Sentiment r = s)) fdf.
Proof.
  rewrite count_where_fmap. apply count_where_ext. intros r.
  apply bool_decide_pair.
Qed.

(** Every record of the subset is counted exactly once by the pie chart
    and once by the resolution bars; a slice of the pie is the number of
    records with that sentiment, a bar the number with that resolution
    value and sentiment, and neither chart has an entry for a count of
    zero. *)
Theorem distribution_counts (fdf : list CallRecord) :
  total (SentimentDistribution fdf) = length fdf
  /\ total (ResolutionImpact fdf) = length fdf
  /\ (forall s,
        SentimentDistribution fdf !! s
        = match count_where (fun r => bool_decide (Sentiment r = s)) fdf with
          | O => None
          | S n => Some (S n)
          end)
  /\ (forall v s,
        ResolutionImpact fdf !! (v, s)
        = match count_where (fun r => bool_decide (Resolved r = v)
                                      && bool_decide (Sentiment r = s)) fdf with
          | O => None
          | S n => Some (S n)
          end).
Proof.
  unfold SentimentDistribution, ResolutionImpact.
  split; [rewrite group_size_total; apply length_fmap|].
  split; [rewrite group_size_total; apply length_fmap|].
  split.
  - intros s. rewrite group_size_lookup_count, count_where_fmap. reflexivity.
  - intros v s. rewrite group_size_lookup_count, pair_count. reflexivity.
Qed.

(** The churn chart is the Negative slice of the resolution bars: for each
    resolution value both hold the same count, or neither has an entry. *)
Theorem churn_is_resolution_slice (fdf : list CallRecord) (v : value) :
  ChurnIndicator fdf !! v = ResolutionImpact fdf !! (v, "Negative").
Proof.
  unfold ChurnIndicator, ResolutionImpact.
  rewrite !group_size_lookup_count, churn_count, pair_count. reflexivity.
Qed.

(** The box plot receives, for each sentiment of the subset, the durations
    of the records with that sentiment in row order, and nothing for a
    sentiment without records; a box has as many points as the pie slice
    of its sentiment counts. *)
Theorem duration_groups (fdf : list CallRecord) (s : string) :
  DurationBySentiment fdf !! s
  = match AvgTalkDuration
          <$> List.filter (fun r => bool_decide (Sentiment r = s)) fdf with
    | [] => None
    | l => Some l
    end
  /\ length (default [] (DurationBySentiment fdf !! s))
     = default 0%nat (SentimentDistribution fdf !! s).
Proof.
  assert (Hl : DurationBySentiment fdf !! s
    = match AvgTalkDuration
            <$> List.filter (fun r => bool_decide (Sentiment r = s)) fdf with
      | [] => None
      | l => Some l
      end).
  { unfold DurationBySentiment.
    rewrite group_values_lookup, snd_filter_pairs. reflexivity. }
  split; [exact Hl|].
  rewrite Hl. unfold SentimentDistribution.
  pose proof (count_where_fmap Sentiment (fun x => bool_decide (x = s)) fdf) as Hc.
  unfold count_where in Hc. rewrite group_size_lookup, Hc.
  destruct (List.filter _ fdf) as [|r l]; [reflexivity|].
  simpl. rewrite length_fmap. reflexivity.
Qed.

Section TrendProps.
Variable strftime_Ym : Z -> string.

Local Abbreviation month_keys :=
  (fun fdf : list CallRecord => (fun r => (strftime_Ym (Date r), Sentiment r)) <$> fdf).

Lemma month_count (fdf : list CallRecord) (m s : string) :
  count_where (fun x => bool_decide (x = (m, s))) (month_keys fdf)
  = count_where (fun r => bool_decide (strftime_Ym (Date r) = m)
                          && bool_decide (Sentiment r = s)) fdf.
Proof.
  rewrite count_where_fmap. apply count_where_ext. intros r.
  apply bool_decide_pair.
Qed.

Lemma trend_index (fdf : list CallRecord) (m : string) :
  m ∈ (set_map fst (dom (group_size (month_keys fdf))) : gset string)
  <-> count_where (fun r => bool_decide (strftime_Ym (Date r) = m)) fdf <> 0%nat.
Proof.
  rewrite elem_of_map, count_where_pos_iff. split.
  - intros ([m' s] & -> & Hdom). simpl.
    apply group_size_dom in Hdom. rewrite month_count in Hdom.
    apply count_where_pos_iff in Hdom as (r & Hr & Hp).
    apply andb_true_iff in Hp as [Hp _]. eauto.
  - intros (r & Hr & Hp). exists (m, Sentiment r). split; [reflexivity|].
    apply group_size_dom. rewrite month_count. apply count_where_pos_iff.
    exists r. split; [exact Hr|]. rewrite Hp.
    apply bool_decide_eq_true_2. reflexivity.
Qed.

Lemma trend_columns (fdf : list CallRecord) (s : string) :
  s ∈ (set_map snd (dom (group_size (month_keys fdf))) : gset string)
  <-> count_where (fun r => bool_decide (Sentiment r = s)) fdf <> 0%nat.
Proof.
  rewrite elem_of_map, count_where_pos_iff. split.
  - intros ([m s'] & -> & Hdom). simpl.
    apply group_size_dom in Hdom. rewrite month_count in Hdom.
    apply count_where_pos_iff in Hdom as (r & Hr & Hp).
    apply andb_true_iff in Hp as [_ Hp]. eauto.
  - intros (r & Hr & Hp). exists (strftime_Ym (Date r), s). split; [reflexivity|].
    apply group_size_dom. rewrite month_count. apply count_where_pos_iff.
    exists r. split; [exact Hr|]. rewrite Hp.
    rewrite bool_decide_eq_true_2 by reflexivity. reflexivity.
Qed.

(** The trend table has a row for a month exactly when the subset has a
    record in that month; every row has a cell for each sentiment that
    occurs anywhere in the subset, and for no other; the cell holds the
    number of records of that month and sentiment, 0 where there is none. *)
Theorem trend_table (fdf : list CallRecord) (m s : string) :
  let in_month r := bool_decide (strftime_Ym (Date r) = m) in
  let has_sentiment r := bool_decide (Sentiment r = s) in
  match SentimentTrend strftime_Ym fdf !! m with
  | None => count_where in_month fdf = 0%nat
  | Some row =>
      count_where in_month fdf <> 0%nat
      /\ row !! s
         = match count_where has_sentiment fdf with
           | O => None
           | S _ => Some (count_where (fun r => in_month r && has_sentiment r) fdf)
           end
  end.
Proof.
  intros in_month has_sentiment.
  unfold SentimentTrend, unstack_fillna.
  rewrite set_to_map_lookup_fn.
  destruct (decide (m ∈ _)) as [Hm|Hm].
  - split; [apply trend_index, Hm|].
    rewrite set_to_map_lookup_fn.
    destruct (decide (s ∈ _)) as [Hs|Hs].
    + apply trend_columns in Hs. fold has_sentiment in Hs.
      destruct (count_where has_sentiment fdf); [congruence|].
      f_equal. pose proof (group_size_lookup (month_keys fdf) (m, s)) as Hc.
      rewrite Hc. apply month_count.
    + destruct (count_where has_sentiment fdf) eqn:Hc; [reflexivity|].
      exfalso. apply Hs, trend_columns. fold has_sentiment. congruence.
  - destruct (Nat.eq_dec (count_where in_month fdf) 0%nat) as [H0|H0]; [exact H0|].
    exfalso. apply Hm, trend_index, H0.
Qed.

(** The pie, the trend table, the resolution bars and the churn chart do
    not depend on the order of the rows. *)
Theorem counts_order_insensitive (fdf1 fdf2 : list CallRecord) :
  Permutation fdf1 fdf2 ->
  SentimentDistribution fdf1 = SentimentDistribution fdf2
  /\ SentimentTrend strftime_Ym fdf1 = SentimentTrend strftime_Ym fdf2
  /\ ResolutionImpact fdf1 = ResolutionImpact fdf2
  /\ ChurnIndicator fdf1 = ChurnIndicator fdf2.
Proof.
  intros Hp.
  unfold SentimentDistribution, SentimentTrend, ResolutionImpact, ChurnIndicator.
  split; [|split; [|split]].
  - apply group_size_ext. intros k. rewrite !count_where_fmap.
    apply count_where_perm, Hp.
  - f_equal. apply group_size_ext. intros [m s]. rewrite !month_count.
    apply count_where_perm, Hp.
  - apply group_size_ext. intros [v s]. rewrite !pair_count.
    apply count_where_perm, Hp.
  - apply group_size_ext. intros v. rewrite !churn_count.
    apply count_where_perm, Hp.
Qed.
End TrendProps.

(** ** The saved filters over time *)

Section HistoryProps.
Import Store.
Variable str_sentiment : option (list string) -> string.
Variable str_range : Q * Q -> string.

Local Abbreviation handle := (handle_past_data str_sentiment str_range).
Local Abbreviation runs := (run str_sentiment str_range).

Lemma consecutive_fresh : History.consecutive fresh_database.
Proof. reflexivity. Qed.

Lemma consecutive_snoc (db : database) (r : past_filter) :
  History.consecutive db -> id r = sqlite_sequence db + 1 ->
  History.consecutive {| past_filters := past_filters db ++ [r];
                         sqlite_sequence := sqlite_sequence db + 1 |}.
Proof.
  unfold History.consecutive, ids. simpl. intros Hc Hid.
  rewrite fmap_app, length_app, Hc. simpl. rewrite Hid.
  replace (length (past_filters db) + 1)%nat with (S (length (past_filters db))) by lia.
  rewrite seqZ_S. f_equal; [f_equal; lia|f_equal; lia].
Qed.

(** One firing, with what it does to the table. *)
Lemma handle_step_rows (ev : event) (db : database) :
  wf db -> History.consecutive db ->
  sqlite_sequence db + step_count ev <= max_rowid ->
  exists db' out, handle ev db = Ok (db', out)
    /\ wf db' /\ History.consecutive db'
    /\ sqlite_sequence db' = sqlite_sequence db + step_count ev
    /\ length (past_filters db')
       = (if is_save ev then S (length (past_filters db))
          else if History.is_delete ev then 0%nat
          else length (past_filters db)).
Proof.
  intros Hwf Hc Hroom. unfold step_count, is_save, History.is_delete in *.
  unfold handle_past_data.
  destruct (triggered ev) as [b|].
  - destruct (String.eqb b "save-view-btn") eqn:Hb; simpl.
    + destruct (sql_insert_wf (insert_values str_sentiment str_range (inputs ev))
                  db Hwf ltac:(lia)) as [Hins Hwf'].
      rewrite Hins. simpl. eexists _, _. split; [reflexivity|].
      split; [exact Hwf'|]. split; [apply consecutive_snoc; [exact Hc|reflexivity]|].
      split; [reflexivity|]. simpl. rewrite length_app. simpl. lia.
    + destruct (String.eqb b "delete-all-btn"); simpl; eexists _, _;
        (split; [reflexivity|]).
      * split; [apply wf_delete_all, Hwf|]. split; [reflexivity|].
        split; [simpl; lia|reflexivity].
      * split; [exact Hwf|]. split; [exact Hc|]. split; [lia|reflexivity].
  - exists db, None. split; [reflexivity|]. split; [exact Hwf|].
    split; [exact Hc|]. split; [lia|reflexivity].
Qed.

Lemma run_rows (evs : list event) (db : database) :
  wf db -> History.consecutive db ->
  sqlite_sequence db + saves evs <= max_rowid ->
  exists tr dbn, runs evs db = Ok tr
    /\ last tr = Some dbn
    /\ History.consecutive dbn
    /\ sqlite_sequence dbn = sqlite_sequence db + saves evs
    /\ length (past_filters dbn) = History.pending evs (length (past_filters db)).
Proof.
  revert db. induction evs as [|ev evs IH]; intros db Hwf Hc Hroom.
  - exists [db], db. simpl. split; [reflexivity|]. split; [reflexivity|].
    split; [exact Hc|]. split; [unfold saves; simpl; lia|reflexivity].
  - rewrite saves_cons in Hroom. pose proof (saves_nonneg evs) as Hs.
    destruct (handle_step_rows ev db Hwf Hc ltac:(lia))
      as (db' & out & Hh & Hwf' & Hc' & Hseq & Hlen).
    destruct (IH db' Hwf' Hc' ltac:(lia))
      as (tr & dbn & Hrun & Hlast & Hcn & Hseqn & Hlenn).
    exists (db :: tr), dbn. simpl. rewrite Hh. simpl. rewrite Hrun. simpl.
    split; [reflexivity|]. split; [rewrite last_cons, Hlast; reflexivity|].
    split; [exact Hcn|]. split; [rewrite saves_cons; lia|].
    rewrite Hlenn, Hlen. reflexivity.
Qed.

(** After any sequence of firings on a new database (within the rowids
    there are), the listing holds one record for each save made since the
    last "Delete All", and their identifiers are the consecutive integers
    that end at the number of saves ever made. *)
Theorem history_listing (evs : list event) :
  saves evs <= max_rowid ->
  exists tr db,
    runs evs fresh_database = Ok tr
    /\ last tr = Some db
    /\ length (sql_select_all db) = History.pending evs 0
    /\ id <$> sql_select_all db
       = seqZ (saves evs - Z.of_nat (History.pending evs 0) + 1)
              (Z.of_nat (History.pending evs 0)).
Proof.
  intros Hroom.
  destruct (run_rows evs fresh_database wf_fresh consecutive_fresh
              ltac:(simpl; lia)) as (tr & db & Hrun & Hlast & Hc & Hseq & Hlen).
  simpl in Hseq, Hlen.
  exists tr, db. split; [exact Hrun|]. split; [exact Hlast|].
  split; [exact Hlen|].
  unfold History.consecutive, ids in Hc. unfold sql_select_all.
  rewrite Hc, Hlen, Hseq. reflexivity.
Qed.

(** Once the largest rowid has been given out, a save raises and no state
    follows; until then no firing raises. *)
Lemma history_exhaustion (evs : list event) :
  (exists tr, runs evs fresh_database = Ok tr) <-> saves evs <= max_rowid.
Proof.
  split.
  - intros [tr Hrun].
    assert (Hgen : forall evs db tr, wf db -> runs evs db = Ok tr ->
              sqlite_sequence db <= max_rowid ->
              sqlite_sequence db + saves evs <= max_rowid).
    { clear. induction evs as [|ev evs IH]; intros db tr Hwf Hrun Hle.
      - unfold saves. simpl. lia.
      - rewrite saves_cons. simpl in Hrun.
        destruct (Z_lt_le_dec (sqlite_sequence db + step_count ev) (max_rowid + 1))
          as [Hok|Hfull].
        + destruct (handle_step str_sentiment str_range ev db Hwf ltac:(lia))
            as (db' & out & Hh & Hwf' & Hseq).
          rewrite Hh in Hrun. simpl in Hrun.
          destruct (runs evs db') as [tr'|e] eqn:Hr; [|discriminate].
          specialize (IH db' tr' Hwf' Hr ltac:(lia)). lia.
        + exfalso. unfold step_count, is_save in Hfull.
          unfold handle_past_data in Hrun.
          destruct (triggered ev) as [b|]; [|lia].
          destruct (String.eqb b "save-view-btn"); [|lia].
          rewrite sql_insert_full in Hrun by lia. discriminate. }
    specialize (Hgen evs fresh_database tr wf_fresh Hrun ltac:(unfold max_rowid; simpl; lia)).
    simpl in Hgen. exact Hgen.
  - intros Hroom.
    destruct (run_invariant str_sentiment str_range evs fresh_database wf_fresh
                ltac:(simpl; lia)) as (tr & _ & Hrun & _). eauto.
Qed.
End HistoryProps.

(** ** The further properties on the example data *)

Example sample_startup :
  startup Sample.to_datetime Sample.to_timedelta_seconds Sample.frame
  = inr Sample.board.
Proof. vm_compute. reflexivity. Qed.

Example sample_startup_no_date :
  startup Sample.to_datetime Sample.to_timedelta_seconds Sample.frame_no_date
  = inl (MissingColumns {[ "Date" ]}).
Proof. vm_compute. reflexivity. Qed.

Example sample_startup_unusable :
  startup Sample.to_datetime Sample.to_timedelta_seconds Sample.frame_unusable
  = inl NaNToInt.
Proof. vm_compute. reflexivity. Qed.

Example sample_startup_text_rating :
  startup Sample.to_datetime Sample.to_timedelta_seconds Sample.frame_text_rating
  = inl (Uncaught TypeError).
Proof. vm_compute. reflexivity. Qed.

Lemma normalized_sentiments_sample :
  normalize Sample.to_datetime Sample.to_timedelta_seconds Sample.sheet
  = Ok (dataset Sample.board)
  /\ Forall (fun rec => In (Sentiment rec) sentiment_labels
                        /\ classify_sentiment (rating rec) = Ok (Sentiment rec))
       (dataset Sample.board)
  /\ (length (dataset Sample.board) <= length Sample.sheet)%nat.
Proof.
  split; [reflexivity|].
  apply (normalized_sentiments Sample.to_datetime Sample.to_timedelta_seconds
           Sample.sheet (dataset Sample.board)).
  reflexivity.
Defined.

Lemma startup_initial_view_sample :
  startup Sample.to_datetime Sample.to_timedelta_seconds Sample.frame
  = inr Sample.board
  /\ normalize Sample.to_datetime Sample.to_timedelta_seconds
       (as_raw_row <$> sheet_rows Sample.frame) = Ok (dataset Sample.board)
  /\ dataset Sample.board <> []
  /\ filtered_df (dataset Sample.board) (initial_criteria Sample.board)
     = dataset Sample.board.
Proof.
  split; [vm_compute; reflexivity|].
  apply (startup_initial_view Sample.to_datetime Sample.to_timedelta_seconds
           Sample.frame Sample.board).
  vm_compute. reflexivity.
Defined.

Lemma startup_bounds_tight_sample :
  startup Sample.to_datetime Sample.to_timedelta_seconds Sample.frame
  = inr Sample.board
  /\ let c := initial_criteria Sample.board in
     (forall r, In r (dataset Sample.board) ->
        start_date c <= Date r <= end_date c
        /\ (fst (duration_range c) <= AvgTalkDuration r)%Q
        /\ (AvgTalkDuration r <= snd (duration_range c))%Q)
     /\ (exists r, In r (dataset Sample.board) /\ Date r = start_date c)
     /\ (exists r, In r (dataset Sample.board) /\ Date r = end_date c)
     /\ (exists r, In r (dataset Sample.board)
                   /\ AvgTalkDuration r = fst (duration_range c))
     /\ (exists r, In r (dataset Sample.board)
                   /\ AvgTalkDuration r = snd (duration_range c)).
Proof.
  split; [vm_compute; reflexivity|].
  apply (startup_bounds_tight Sample.to_datetime Sample.to_timedelta_seconds
           Sample.frame Sample.board).
  vm_compute. reflexivity.
Defined.

Lemma startup_sentiment_options_sample :
  startup Sample.to_datetime Sample.to_timedelta_seconds Sample.frame
  = inr Sample.board
  /\ List.NoDup (sentiment_options Sample.board)
  /\ (forall s, In s (sentiment_options Sample.board)
        <-> exists r, In r (dataset Sample.board) /\ Sentiment r = s)
  /\ (forall s, In s (sentiment_options Sample.board) -> In s sentiment_labels).
Proof.
  split; [vm_compute; reflexivity|].
  apply (startup_sentiment_options Sample.to_datetime Sample.to_timedelta_seconds
           Sample.frame Sample.board).
  vm_compute. reflexivity.
Defined.

Lemma every_sentiment_no_filter_sample :
  normalize Sample.to_datetime Sample.to_timedelta_seconds Sample.sheet
  = Ok (dataset Sample.board)
  /\ selected_sentiments Sample.criteria_every_sentiment
     = Some ["Negative"; "Neutral"; "Positive"]
  /\ (forall s, In s sentiment_labels -> In s ["Negative"; "Neutral"; "Positive"])
  /\ filtered_df (dataset Sample.board) Sample.criteria_every_sentiment
     = filtered_df_without_sentiment (dataset Sample.board)
         Sample.criteria_every_sentiment.
Proof.
  assert (Hall : forall s, In s sentiment_labels ->
                   In s ["Negative"; "Neutral"; "Positive"])
    by (simpl; tauto).
  split; [reflexivity|]. split; [reflexivity|]. split; [exact Hall|].
  apply (every_sentiment_no_filter Sample.to_datetime Sample.to_timedelta_seconds
           Sample.sheet (dataset Sample.board) Sample.criteria_every_sentiment
           ["Negative"; "Neutral"; "Positive"]).
  - reflexivity.
  - reflexivity.
  - exact Hall.
Defined.

Lemma counts_order_insensitive_sample :
  Permutation [Sample.rec1; Sample.rec2] [Sample.rec2; Sample.rec1]
  /\ SentimentDistribution [Sample.rec1; Sample.rec2]
     = SentimentDistribution [Sample.rec2; Sample.rec1]
  /\ SentimentTrend Sample.strftime_Ym [Sample.rec1; Sample.rec2]
     = SentimentTrend Sample.strftime_Ym [Sample.rec2; Sample.rec1]
  /\ ResolutionImpact [Sample.rec1; Sample.rec2]
     = ResolutionImpact [Sample.rec2; Sample.rec1]
  /\ ChurnIndicator [Sample.rec1; Sample.rec2]
     = ChurnIndicator [Sample.rec2; Sample.rec1].
Proof.
  split; [apply perm_swap|].
  apply (counts_order_insensitive Sample.strftime_Ym
           [Sample.rec1; Sample.rec2] [Sample.rec2; Sample.rec1]).
  apply perm_swap.
Defined.

Lemma history_listing_sample :
  Store.saves (Sample.clicks ++ [Store.click "save-view-btn" Sample.state])
  <= Store.max_rowid
  /\ exists tr db,
       Store.run Sample.str_sentiment Sample.str_range
         (Sample.clicks ++ [Store.click "save-view-btn" Sample.state])
         Store.fresh_database = Ok tr
       /\ last tr = Some db
       /\ length (Store.sql_select_all db)
          = History.pending
              (Sample.clicks ++ [Store.click "save-view-btn" Sample.state]) 0
       /\ Store.id <$> Store.sql_select_all db
          = seqZ (Store.saves
                    (Sample.clicks ++ [Store.click "save-view-btn" Sample.state])
                  - Z.of_nat (History.pending
                      (Sample.clicks ++ [Store.click "save-view-btn" Sample.state]) 0)
                  + 1)
                 (Z.of_nat (History.pending
                    (Sample.clicks ++ [Store.click "save-view-btn" Sample.state]) 0)).
Proof.
  split; [vm_compute; discriminate|].
  apply (history_listing Sample.str_sentiment Sample.str_range
           (Sample.clicks ++ [Store.click "save-view-btn" Sample.state])).
  vm_compute. discriminate.
Defined.
